(** * Quagga routing services of CORE: a shallow embedding

    The model follows [daemon/core/services/quagga.py]: the [Zebra]
    service composes [Quagga.conf] from the hooks of the services that
    depend on it, and the protocol services ([Ospfv2], [Ospfv3],
    [Ospfv3mdr], [Bgp], [Rip], [Ripng], [Babel], [Xpimd]) provide the
    hooks.  Python strings are [string], integers are [Z], exceptions
    are values of an error monad. *)

From Stdlib Require Import String Ascii ZArith List Bool Lia Permutation.
From Stdlib Require Import DecimalString.
Import ListNotations.

Local Open Scope Z_scope.
Local Open Scope string_scope.

(** ** Python strings *)

Module PyStr.

(** The one-character string ["\n"]. *)
Definition nl : string := String (ascii_of_nat 10) EmptyString.

(** [x.find(sub)]: lowest index of [sub] in [x], or [-1]. *)
Definition find (sub x : string) : Z :=
  match index 0 sub x with
  | Some n => Z.of_nat n
  | None => -1
  end.

(** [x.split(sep)] for a one-character separator. The result is never
    empty, so [x.split(sep)[0]] is [hd "" (split sep x)]. *)
Fixpoint split (sep : ascii) (x : string) : list string :=
  match x with
  | EmptyString => [EmptyString]
  | String c x' =>
      if Ascii.eqb c sep then EmptyString :: split sep x'
      else match split sep x' with
           | [] => [String c EmptyString]
           | w :: ws => String c w :: ws
           end
  end.

(** [sep.join(l)]. *)
Fixpoint join (sep : string) (l : list string) : string :=
  match l with
  | [] => EmptyString
  | [a] => a
  | a :: l' => a ++ sep ++ join sep l'
  end.

(** ["%d" % n] and ["%s" % n] for an integer [n]. *)
Definition of_int (n : Z) : string := NilZero.string_of_int (Z.to_int n).

(** The double quote, as a one-character string. *)
Definition dq : string := String (ascii_of_nat 34) EmptyString.

(** A literal of several lines: every line is followed by a newline. *)
Fixpoint unlines (l : list string) : string :=
  match l with
  | [] => EmptyString
  | a :: l' => a ++ nl ++ unlines l'
  end.

(** [a in t] for a tuple of strings [t]. *)
Definition mem (a : string) (t : list string) : bool :=
  existsb (String.eqb a) t.

End PyStr.
Import PyStr.

(** ** Exceptions *)

Inductive exn : Type :=
| ValueError (msg : string) (args : list string)
| AttributeError (attr : string).

Inductive result (A : Type) : Type :=
| Ok (a : A)
| Raise (e : exn).
Arguments Ok {A} a.
Arguments Raise {A} e.

Definition bind {A B : Type} (c : result A) (k : A -> result B) : result B :=
  match c with
  | Ok a => k a
  | Raise e => Raise e
  end.

Notation "x <- c ;; k" := (bind c (fun x => k))
  (at level 61, c at next level, right associativity).

(** A [for] loop whose body may raise, threading the loop state. *)
Fixpoint foldM {A S : Type} (body : S -> A -> result S) (l : list A) (s : S)
  : result S :=
  match l with
  | [] => Ok s
  | a :: l' => s' <- body s a ;; foldM body l' s'
  end.

(** [map(f, l)] consumed to the end, for an [f] that may raise. *)
Fixpoint mapM {A B : Type} (f : A -> result B) (l : list A) : result (list B) :=
  match l with
  | [] => Ok []
  | a :: l' => b <- f a ;; bs <- mapM f l' ;; Ok (b :: bs)
  end.

(** ** Topology and services, as the services read them *)

Inductive LinkTypes : Type := WIRELESS | WIRED.

Inductive NodeTypes : Type :=
| RJ45 | PEER_TO_PEER | WIRELESS_LAN | EMANE | OTHER_NODE_TYPE.

(** An interface and the network it is attached to. A network lists its
    member interfaces; the services read only their [mtu]. *)
Inductive CoreInterface : Type :=
  mkIfc (name : string) (mtu : Z) (control : bool)
        (addrlist : list string) (net : option CoreNetwork)
with CoreNetwork : Type :=
  mkNet (netifs : list CoreInterface) (linktype : LinkTypes)
        (nodetype : NodeTypes).

Definition ifc_name (i : CoreInterface) : string :=
  let (n, _, _, _, _) := i in n.
Definition ifc_mtu (i : CoreInterface) : Z :=
  let (_, m, _, _, _) := i in m.
(** [hasattr(ifc, "control") and ifc.control is True]. *)
Definition ifc_control (i : CoreInterface) : bool :=
  let (_, _, c, _, _) := i in c.
Definition ifc_addrlist (i : CoreInterface) : list string :=
  let (_, _, _, a, _) := i in a.
Definition ifc_net (i : CoreInterface) : option CoreNetwork :=
  let (_, _, _, _, n) := i in n.

Definition net_netifs (n : CoreNetwork) : list CoreInterface :=
  let (l, _, _) := n in l.
Definition net_linktype (n : CoreNetwork) : LinkTypes :=
  let (_, t, _) := n in t.
Definition net_nodetype (n : CoreNetwork) : NodeTypes :=
  let (_, _, t) := n in t.

(** The classes of [quagga.py]; a service dispatches its hooks on its
    class. *)
Inductive ServiceClass : Type :=
| ZebraClass | Ospfv2Class | Ospfv3Class | Ospfv3mdrClass | BgpClass
| RipClass | RipngClass | BabelClass | XpimdClass.

(** The class attributes of a service that the composer reads. *)
Record CoreService : Type := mkService {
  cls : ServiceClass;
  name : string;
  dependencies : list string;
  ipv4_routing : bool;
  ipv6_routing : bool
}.

Record CoreNode : Type := mkNode {
  id : Z;
  node_netifs : list CoreInterface;
  services : list CoreService;
  (** [node.session.options], as a list of (key, value) pairs *)
  options : list (string * string)
}.

(** Modelled from the spec: the option store behind
    [node.session.options] is not among the sources. The two search path
    strings are configurable, with fixed defaults when absent:
    [options.get_config(key, default=d)] is the value stored for [key],
    and [d] when there is none. *)
Fixpoint get_config (opts : list (string * string)) (key default : string)
  : string :=
  match opts with
  | [] => default
  | (k, v) :: opts' => if String.eqb k key then v else get_config opts' key default
  end.

(** What [quagga.py] imports from the rest of CORE: [core.nodes.ipaddress],
    [core.nodes.nodeutils] and [core.constants]. *)
Class CoreLib : Type := {
  is_ipv4_address : string -> bool;
  is_ipv6_address : string -> bool;
  (** [str(ipaddress.Ipv4Prefix(a))]; the constructor may raise *)
  Ipv4Prefix : string -> result string;
  is_node : CoreNetwork -> list NodeTypes -> bool;
  QUAGGA_STATE_DIR : string
}.

(** ** [class QuaggaService]: what the routing services share *)

Module QuaggaService.

(** [routerid(node)]: the first address with a dot, over the interfaces
    that are not control interfaces; the inner loop returns from the
    function at the first hit. *)
Fixpoint routerid_addrs (addrs : list string) : option string :=
  match addrs with
  | [] => None
  | a :: addrs' =>
      if (find "." a >=? 0)%Z then Some (hd EmptyString (split "/" a))
      else routerid_addrs addrs'
  end.

Fixpoint routerid_netifs (ifcs : list CoreInterface) : string :=
  match ifcs with
  | [] => "0.0.0.0"
  | ifc :: ifcs' =>
      if ifc_control ifc then routerid_netifs ifcs'
      else match routerid_addrs (ifc_addrlist ifc) with
           | Some r => r
           | None => routerid_netifs ifcs'
           end
  end.

Definition routerid (node : CoreNode) : string :=
  routerid_netifs (node_netifs node).

Definition generate_config (node : CoreNode) (filename : string) : string :=
  EmptyString.

Definition generatequaggaifcconfig (node : CoreNode) (ifc : CoreInterface)
  : string := EmptyString.

Definition generatequaggaconfig (node : CoreNode) : string := EmptyString.

End QuaggaService.

(** ** [class Ospfv2] *)

Module Ospfv2.

Definition service : CoreService :=
  mkService Ospfv2Class "OSPFv2" ["zebra"] true false.

(** The loop over [ifc.net.netifs()] returns at the first member whose
    mtu differs. *)
Definition mtucheck (ifc : CoreInterface) : string :=
  if negb (ifc_mtu ifc =? 1500)%Z then "  ip ospf mtu-ignore" ++ nl
  else match ifc_net ifc with
       | None => EmptyString
       | Some n =>
           if existsb (fun i => negb (ifc_mtu i =? ifc_mtu ifc)%Z) (net_netifs n)
           then "  ip ospf mtu-ignore" ++ nl
           else EmptyString
       end.

Section WithCoreLib.
Context `{CoreLib}.

(** The [network ... area 0] lines of one interface. *)
Definition network_lines (cfg : string) (ifc : CoreInterface) : result string :=
  if ifc_control ifc then Ok cfg
  else foldM (fun cfg a =>
                if (find "." a <? 0)%Z then Ok cfg
                else net <- Ipv4Prefix a ;;
                     Ok (cfg ++ "  network " ++ net ++ " area 0" ++ nl))
             (ifc_addrlist ifc) cfg.

Definition generatequaggaconfig (node : CoreNode) : result string :=
  let cfg := "router ospf" ++ nl in
  let rtrid := QuaggaService.routerid node in
  let cfg := cfg ++ "  router-id " ++ rtrid ++ nl in
  cfg <- foldM network_lines (node_netifs node) cfg ;;
  Ok (cfg ++ "!" ++ nl).

End WithCoreLib.

Definition generatequaggaifcconfig (node : CoreNode) (ifc : CoreInterface)
  : string := mtucheck ifc.

End Ospfv2.

(** ** [class Ospfv3] *)

Module Ospfv3.

Definition service : CoreService :=
  mkService Ospfv3Class "OSPFv3" ["zebra"] true true.

Definition minmtu (ifc : CoreInterface) : Z :=
  let mtu := ifc_mtu ifc in
  match ifc_net ifc with
  | None => mtu
  | Some n =>
      fold_left (fun mtu i => if (ifc_mtu i <? mtu)%Z then ifc_mtu i else mtu)
                (net_netifs n) mtu
  end.

Definition mtucheck (ifc : CoreInterface) : string :=
  let minmtu := minmtu ifc in
  if (minmtu <? ifc_mtu ifc)%Z then "  ipv6 ospf6 ifmtu " ++ of_int minmtu ++ nl
  else EmptyString.

Definition generatequaggaconfig (node : CoreNode) : string :=
  let cfg := "router ospf6" ++ nl in
  let rtrid := QuaggaService.routerid node in
  let cfg := cfg ++ "  router-id " ++ rtrid ++ nl in
  let cfg :=
    fold_left (fun cfg ifc =>
                 if ifc_control ifc then cfg
                 else cfg ++ "  interface " ++ ifc_name ifc ++ " area 0.0.0.0" ++ nl)
              (node_netifs node) cfg in
  cfg ++ "!" ++ nl.

Definition generatequaggaifcconfig (node : CoreNode) (ifc : CoreInterface)
  : string := mtucheck ifc.

End Ospfv3.

(** ** [class Ospfv3mdr(Ospfv3)] *)

Module Ospfv3mdr.

Definition service : CoreService :=
  mkService Ospfv3mdrClass "OSPFv3MDR" ["zebra"] true true.

Section WithCoreLib.
Context `{CoreLib}.

Definition generatequaggaifcconfig (node : CoreNode) (ifc : CoreInterface)
  : string :=
  let cfg := Ospfv3.mtucheck ifc in
  let cfg := cfg ++ "  ipv6 ospf6 instance-id 65" ++ nl in
  match ifc_net ifc with
  | Some n =>
      if is_node n [WIRELESS_LAN; EMANE] then
        cfg
        ++ "  ipv6 ospf6 hello-interval 2" ++ nl
        ++ "  ipv6 ospf6 dead-interval 6" ++ nl
        ++ "  ipv6 ospf6 retransmit-interval 5" ++ nl
        ++ "  ipv6 ospf6 network manet-designated-router" ++ nl
        ++ "  ipv6 ospf6 diffhellos" ++ nl
        ++ "  ipv6 ospf6 adjacencyconnectivity uniconnected" ++ nl
        ++ "  ipv6 ospf6 lsafullness mincostlsa" ++ nl
      else cfg
  | None => cfg
  end.

End WithCoreLib.

End Ospfv3mdr.

(** ** [class Bgp] *)

Module Bgp.

Definition service : CoreService :=
  mkService BgpClass "BGP" ["zebra"] true true.

Definition generatequaggaconfig (node : CoreNode) : string :=
  let cfg := "!" ++ nl ++ "! BGP configuration" ++ nl ++ "!" ++ nl in
  let cfg := cfg ++ "! You should configure the AS number below," ++ nl in
  let cfg := cfg ++ "! along with this router's peers." ++ nl ++ "!" ++ nl in
  let cfg := cfg ++ "router bgp " ++ of_int (id node) ++ nl in
  let rtrid := QuaggaService.routerid node in
  let cfg := cfg ++ "  bgp router-id " ++ rtrid ++ nl in
  let cfg := cfg ++ "  redistribute connected" ++ nl in
  cfg ++ "! neighbor 1.2.3.4 remote-as 555" ++ nl ++ "!" ++ nl.

End Bgp.

(** ** [class Rip] and [class Ripng] *)

Module Rip.

Definition service : CoreService :=
  mkService RipClass "RIP" ["zebra"] true false.

Definition generatequaggaconfig (node : CoreNode) : string :=
  "router rip" ++ nl
  ++ "  redistribute static" ++ nl
  ++ "  redistribute connected" ++ nl
  ++ "  redistribute ospf" ++ nl
  ++ "  network 0.0.0.0/0" ++ nl
  ++ "!" ++ nl.

End Rip.

Module Ripng.

Definition service : CoreService :=
  mkService RipngClass "RIPNG" ["zebra"] false true.

Definition generatequaggaconfig (node : CoreNode) : string :=
  "router ripng" ++ nl
  ++ "  redistribute static" ++ nl
  ++ "  redistribute connected" ++ nl
  ++ "  redistribute ospf6" ++ nl
  ++ "  network ::/0" ++ nl
  ++ "!" ++ nl.

End Ripng.

(** ** [class Babel] *)

Module Babel.

Definition service : CoreService :=
  mkService BabelClass "Babel" ["zebra"] false true.

Definition generatequaggaconfig (node : CoreNode) : string :=
  let cfg := "router babel" ++ nl in
  let cfg :=
    fold_left (fun cfg ifc =>
                 if ifc_control ifc then cfg
                 else cfg ++ "  network " ++ ifc_name ifc ++ nl)
              (node_netifs node) cfg in
  cfg ++ "  redistribute static" ++ nl ++ "  redistribute connected" ++ nl.

Definition generatequaggaifcconfig (node : CoreNode) (ifc : CoreInterface)
  : string :=
  match ifc_net ifc with
  | Some (mkNet _ WIRELESS _) =>
      "  babel wireless" ++ nl ++ "  no babel split-horizon" ++ nl
  | _ => "  babel wired" ++ nl ++ "  babel split-horizon" ++ nl
  end.

End Babel.

(** ** [class Xpimd] *)

Module Xpimd.

Definition service : CoreService :=
  mkService XpimdClass "Xpimd" ["zebra"] true false.

(** The loop breaks at the first interface that is not [lo]. *)
Fixpoint first_not_lo (ifcs : list CoreInterface) (ifname : string) : string :=
  match ifcs with
  | [] => ifname
  | ifc :: ifcs' =>
      if negb (String.eqb (ifc_name ifc) "lo") then ifc_name ifc
      else first_not_lo ifcs' ifname
  end.

Definition generatequaggaconfig (node : CoreNode) : string :=
  let ifname := first_not_lo (node_netifs node) "eth0" in
  let cfg := "router mfea" ++ nl ++ "!" ++ nl in
  let cfg := cfg ++ "router igmp" ++ nl ++ "!" ++ nl in
  let cfg := cfg ++ "router pim" ++ nl in
  let cfg := cfg ++ "  !ip pim rp-address 10.0.0.1" ++ nl in
  let cfg := cfg ++ "  ip pim bsr-candidate " ++ ifname ++ nl in
  let cfg := cfg ++ "  ip pim rp-candidate " ++ ifname ++ nl in
  cfg ++ "  !ip pim spt-threshold interval 10 bytes 80000" ++ nl.

Definition generatequaggaifcconfig (node : CoreNode) (ifc : CoreInterface)
  : string :=
  "  ip mfea" ++ nl ++ "  ip igmp" ++ nl ++ "  ip pim" ++ nl.

End Xpimd.

(** ** Method dispatch: [s.generatequaggaifcconfig] and
    [s.generatequaggaconfig] for a service [s] of the node *)

Section Hooks.
Context `{CoreLib}.

(** [Zebra] is a plain [CoreService] and has neither hook; the other
    classes inherit from [QuaggaService] what they do not override. *)
Definition generatequaggaifcconfig (s : CoreService) (node : CoreNode)
  (ifc : CoreInterface) : result string :=
  match cls s with
  | ZebraClass => Raise (AttributeError "generatequaggaifcconfig")
  | Ospfv2Class => Ok (Ospfv2.generatequaggaifcconfig node ifc)
  | Ospfv3Class => Ok (Ospfv3.generatequaggaifcconfig node ifc)
  | Ospfv3mdrClass => Ok (Ospfv3mdr.generatequaggaifcconfig node ifc)
  | BgpClass | RipClass | RipngClass =>
      Ok (QuaggaService.generatequaggaifcconfig node ifc)
  | BabelClass => Ok (Babel.generatequaggaifcconfig node ifc)
  | XpimdClass => Ok (Xpimd.generatequaggaifcconfig node ifc)
  end.

Definition generatequaggaconfig (s : CoreService) (node : CoreNode)
  : result string :=
  match cls s with
  | ZebraClass => Raise (AttributeError "generatequaggaconfig")
  | Ospfv2Class => Ospfv2.generatequaggaconfig node
  | Ospfv3Class | Ospfv3mdrClass => Ok (Ospfv3.generatequaggaconfig node)
  | BgpClass => Ok (Bgp.generatequaggaconfig node)
  | RipClass => Ok (Rip.generatequaggaconfig node)
  | RipngClass => Ok (Ripng.generatequaggaconfig node)
  | BabelClass => Ok (Babel.generatequaggaconfig node)
  | XpimdClass => Ok (Xpimd.generatequaggaconfig node)
  end.

End Hooks.

(** ** [class Zebra] *)

Module Zebra.

(** [Zebra] is a plain [CoreService]: it declares no dependencies and
    has no routing flags; the two flags of the record are never read
    for it. *)
Definition service : CoreService :=
  mkService ZebraClass "zebra" [] false false.

Definition configs : list string :=
  [ "/usr/local/etc/quagga/Quagga.conf";
    "quaggaboot.sh";
    "/usr/local/etc/quagga/vtysh.conf" ].

Definition generateVtyshConf (node : CoreNode) : string :=
  "service integrated-vtysh-config" ++ nl.

Definition addrstr (x : string) : result string :=
  if (find "." x >=? 0)%Z then Ok ("ip address " ++ x)
  else if (find ":" x >=? 0)%Z then Ok ("ipv6 address " ++ x)
  else Raise (ValueError "invalid address: %s" [x]).

(** The three statements
    [cfg += "  "; cfg += "\n  ".join(map(cls.addrstr, l)); cfg += "\n"],
    as the text they add. *)
Definition addr_lines (l : list string) : result string :=
  stmts <- mapM addrstr l ;;
  Ok ("  " ++ join (nl ++ "  ") stmts ++ nl).

(** The locals of the loop over [node.services]. *)
Record ifc_state : Type := mkState {
  cfgv4 : string;
  cfgv6 : string;
  want_ipv4 : bool;
  want_ipv6 : bool
}.

Section WithCoreLib.
Context `{CoreLib}.

(** One round of [for s in node.services] for the interface [ifc]. *)
Definition service_step (node : CoreNode) (ifc : CoreInterface)
  (st : ifc_state) (s : CoreService) : result ifc_state :=
  if negb (mem (name service) (dependencies s)) then Ok st
  else
    ifccfg <- generatequaggaifcconfig s node ifc ;;
    let w4 := if ipv4_routing s then true else want_ipv4 st in
    if ipv6_routing s
    then Ok (mkState (cfgv4 st) (cfgv6 st ++ ifccfg) w4 true)
    else Ok (mkState (cfgv4 st ++ ifccfg) (cfgv6 st) w4 (want_ipv6 st)).

Definition ipv4list (ifc : CoreInterface) : list string :=
  filter (fun x => is_ipv4_address (hd EmptyString (split "/" x)))
         (ifc_addrlist ifc).

Definition ipv6list (ifc : CoreInterface) : list string :=
  filter (fun x => is_ipv6_address (hd EmptyString (split "/" x)))
         (ifc_addrlist ifc).

(** One round of [for ifc in node.netifs()]: [cfg] before, [cfg] after. *)
Definition ifc_body (node : CoreNode) (cfg : string) (ifc : CoreInterface)
  : result string :=
  let cfg := cfg ++ "interface " ++ ifc_name ifc ++ nl in
  if ifc_control ifc then
    lines <- addr_lines (ifc_addrlist ifc) ;;
    Ok (cfg ++ lines)
  else
    st <- foldM (service_step node ifc) (services node)
                (mkState EmptyString EmptyString false false) ;;
    cfg <- (if want_ipv4 st
            then lines <- addr_lines (ipv4list ifc) ;;
                 Ok (cfg ++ lines ++ cfgv4 st)
            else Ok cfg) ;;
    cfg <- (if want_ipv6 st
            then lines <- addr_lines (ipv6list ifc) ;;
                 Ok (cfg ++ lines ++ cfgv6 st)
            else Ok cfg) ;;
    Ok (cfg ++ "!" ++ nl).

(** One round of the second [for s in node.services]. *)
Definition global_body (node : CoreNode) (cfg : string) (s : CoreService)
  : result string :=
  if negb (mem (name service) (dependencies s)) then Ok cfg
  else g <- generatequaggaconfig s node ;; Ok (cfg ++ g).

Definition generateQuaggaConf (node : CoreNode) : result string :=
  cfg <- foldM (ifc_body node) (node_netifs node) EmptyString ;;
  foldM (global_body node) (services node) cfg.

(** [generateQuaggaBoot]: the shell script is one literal with four
    [%s] places; it is written here line by line, each line followed by
    a newline, with [dq] for the double quote. *)
Definition generateQuaggaBoot (node : CoreNode) : string :=
  let quagga_bin_search :=
    get_config (options node) "quagga_bin_search"
               (dq ++ "/usr/local/bin /usr/bin /usr/lib/quagga" ++ dq) in
  let quagga_sbin_search :=
    get_config (options node) "quagga_sbin_search"
               (dq ++ "/usr/local/sbin /usr/sbin /usr/lib/quagga" ++ dq) in
  unlines [
    "#!/bin/sh";
    "# auto-generated by zebra service (quagga.py)";
    "QUAGGA_CONF=" ++ nth 0 configs EmptyString;
    "QUAGGA_SBIN_SEARCH=" ++ quagga_sbin_search;
    "QUAGGA_BIN_SEARCH=" ++ quagga_bin_search;
    "QUAGGA_STATE_DIR=" ++ QUAGGA_STATE_DIR;
    EmptyString;
    "searchforprog()";
    "{";
    "    prog=$1";
    "    searchpath=$@";
    "    ret=";
    "    for p in $searchpath; do";
    "        if [ -x $p/$prog ]; then";
    "            ret=$p";
    "            break";
    "        fi";
    "    done";
    "    echo $ret";
    "}";
    EmptyString;
    "confcheck()";
    "{";
    "    CONF_DIR=`dirname $QUAGGA_CONF`";
    "    # if /etc/quagga exists, point /etc/quagga/Quagga.conf -> CONF_DIR";
    "    if [ " ++ dq ++ "$CONF_DIR" ++ dq ++ " != " ++ dq
      ++ "/etc/quagga" ++ dq
      ++ " ] && [ -d /etc/quagga ] && [ ! -e /etc/quagga/Quagga.conf ]; then";
    "        ln -s $CONF_DIR/Quagga.conf /etc/quagga/Quagga.conf";
    "    fi";
    "    # if /etc/quagga exists, point /etc/quagga/vtysh.conf -> CONF_DIR";
    "    if [ " ++ dq ++ "$CONF_DIR" ++ dq ++ " != " ++ dq
      ++ "/etc/quagga" ++ dq
      ++ " ] && [ -d /etc/quagga ] && [ ! -e /etc/quagga/vtysh.conf ]; then";
    "        ln -s $CONF_DIR/vtysh.conf /etc/quagga/vtysh.conf";
    "    fi";
    "}";
    EmptyString;
    "bootdaemon()";
    "{";
    "    QUAGGA_SBIN_DIR=$(searchforprog $1 $QUAGGA_SBIN_SEARCH)";
    "    if [ " ++ dq ++ "z$QUAGGA_SBIN_DIR" ++ dq ++ " = " ++ dq ++ "z"
      ++ dq ++ " ]; then";
    "        echo " ++ dq
      ++ "ERROR: Quagga's '$1' daemon not found in search path:" ++ dq;
    "        echo " ++ dq ++ "  $QUAGGA_SBIN_SEARCH" ++ dq;
    "        return 1";
    "    fi";
    EmptyString;
    "    flags=" ++ dq ++ dq;
    EmptyString;
    "    if [ " ++ dq ++ "$1" ++ dq ++ " = " ++ dq ++ "xpimd" ++ dq
      ++ " ] && \";
    "        grep -E -q '^[[:space:]]*router[[:space:]]+pim6[[:space:]]*$' $QUAGGA_CONF; then";
    "        flags=" ++ dq ++ "$flags -6" ++ dq;
    "    fi";
    EmptyString;
    "    $QUAGGA_SBIN_DIR/$1 $flags -d";
    "    if [ " ++ dq ++ "$?" ++ dq ++ " != " ++ dq ++ "0" ++ dq ++ " ]; then";
    "        echo " ++ dq
      ++ "ERROR: Quagga's '$1' daemon failed to start!:" ++ dq;
    "        return 1";
    "    fi";
    "}";
    EmptyString;
    "bootquagga()";
    "{";
    "    QUAGGA_BIN_DIR=$(searchforprog 'vtysh' $QUAGGA_BIN_SEARCH)";
    "    if [ " ++ dq ++ "z$QUAGGA_BIN_DIR" ++ dq ++ " = " ++ dq ++ "z"
      ++ dq ++ " ]; then";
    "        echo " ++ dq
      ++ "ERROR: Quagga's 'vtysh' program not found in search path:" ++ dq;
    "        echo " ++ dq ++ "  $QUAGGA_BIN_SEARCH" ++ dq;
    "        return 1";
    "    fi";
    EmptyString;
    "    # fix /var/run/quagga permissions";
    "    id -u quagga 2>/dev/null >/dev/null";
    "    if [ " ++ dq ++ "$?" ++ dq ++ " = " ++ dq ++ "0" ++ dq ++ " ]; then";
    "        chown quagga $QUAGGA_STATE_DIR";
    "    fi";
    EmptyString;
    "    bootdaemon " ++ dq ++ "zebra" ++ dq;
    "    for r in rip ripng ospf6 ospf bgp babel; do";
    "        if grep -q " ++ dq ++ "^router \<${r}\>" ++ dq
      ++ " $QUAGGA_CONF; then";
    "            bootdaemon " ++ dq ++ "${r}d" ++ dq;
    "        fi";
    "    done";
    EmptyString;
    "    if grep -E -q '^[[:space:]]*router[[:space:]]+pim6?[[:space:]]*$' $QUAGGA_CONF; then";
    "        bootdaemon " ++ dq ++ "xpimd" ++ dq;
    "    fi";
    EmptyString;
    "    $QUAGGA_BIN_DIR/vtysh -b";
    "}";
    EmptyString;
    "if [ " ++ dq ++ "$1" ++ dq ++ " != " ++ dq ++ "zebra" ++ dq ++ " ]; then";
    "    echo " ++ dq
      ++ "WARNING: '$1': all Quagga daemons are launched by the 'zebra' service!"
      ++ dq;
    "    exit 1";
    "fi";
    "confcheck";
    "bootquagga"
  ].

Definition generate_config (node : CoreNode) (filename : string)
  : result string :=
  if String.eqb filename (nth 0 configs EmptyString)
  then generateQuaggaConf node
  else if String.eqb filename (nth 1 configs EmptyString)
  then Ok (generateQuaggaBoot node)
  else if String.eqb filename (nth 2 configs EmptyString)
  then Ok (generateVtyshConf node)
  else Raise (ValueError "file name (%s) is not a known configuration: %s"
                         (filename :: configs)).

End WithCoreLib.
End Zebra.

(** ** An instance of the imported helpers, and sample topologies *)

Definition NodeTypes_eqb (a b : NodeTypes) : bool :=
  match a, b with
  | RJ45, RJ45 | PEER_TO_PEER, PEER_TO_PEER | WIRELESS_LAN, WIRELESS_LAN
  | EMANE, EMANE | OTHER_NODE_TYPE, OTHER_NODE_TYPE => true
  | _, _ => false
  end.

(** Modelled from the spec: [core.nodes.ipaddress], [core.nodes.nodeutils]
    and [core.constants] are not among the sources. An address is IPv4
    iff it contains a dot and IPv6 iff it contains a colon; a prefix is
    passed through as given; a network is of a node type when its tag is
    among the types asked for; the state directory is the second of
    [Zebra.dirs]. *)
Definition spec_lib : CoreLib := {|
  is_ipv4_address := fun x => (find "." x >=? 0)%Z;
  is_ipv6_address := fun x => (find ":" x >=? 0)%Z;
  Ipv4Prefix := fun a => Ok a;
  is_node := fun n types => existsb (NodeTypes_eqb (net_nodetype n)) types;
  QUAGGA_STATE_DIR := "/var/run/quagga"
|}.

(** [node.services] replaced, everything else kept. *)
Definition with_services (node : CoreNode) (l : list CoreService) : CoreNode :=
  mkNode (id node) (node_netifs node) l (options node).

Module Sample.

(** The two-interface node of the end-to-end scenario: [eth0] routed,
    mtu 1500, no link; [eth1] a control interface; zebra and OSPFv2. *)
Definition eth0 : CoreInterface :=
  mkIfc "eth0" 1500 false ["10.0.0.1/24"] None.
Definition eth1 : CoreInterface :=
  mkIfc "eth1" 1500 true ["192.168.0.1/24"] None.
Definition node1 : CoreNode :=
  mkNode 1 [eth0; eth1] [Zebra.service; Ospfv2.service] [].


(** A subclass of [Ospfv2] that also declares a dependency on a service
    named [vtysh], and a node that enables it next to zebra, with no
    service of that name. *)
Definition Ospfv2_vtysh : CoreService :=
  mkService Ospfv2Class "OSPFv2" ["zebra"; "vtysh"] true false.
Definition node_missing_dep : CoreNode :=
  mkNode 3 [eth0] [Zebra.service; Ospfv2_vtysh] [].

(** An interface with a jumbo mtu on a link shared with a 1500 peer. *)
Definition peer1500 : CoreInterface := mkIfc "eth0" 1500 false [] None.
Definition jumbo : CoreInterface :=
  mkIfc "eth0" 9000 false ["10.0.1.1/24"; "2001:db8::1/64"]
        (Some (mkNet [mkIfc "eth0" 9000 false [] None; peer1500]
                     WIRED OTHER_NODE_TYPE)).
Definition node_v3 : CoreNode :=
  mkNode 7 [jumbo] [Zebra.service; Ospfv3.service; Ospfv2.service] [].

(** A node whose control interface carries an address that is neither
    IPv4- nor IPv6-shaped. *)
Definition ctrl_bad : CoreInterface :=
  mkIfc "ctrl0" 1500 true ["192.168.0.2/24"; "bogus"] None.
Definition node_bad : CoreNode :=
  mkNode 4 [eth0; ctrl_bad] [Zebra.service; Ospfv2.service] [].

(** A node that enables BGP, which declares both routing families. *)
Definition dual : CoreInterface :=
  mkIfc "eth0" 1500 false ["10.0.2.1/24"; "2001:db8:2::1/64"] None.
Definition node_bgp : CoreNode :=
  mkNode 5 [dual] [Zebra.service; Ospfv3mdr.service; Bgp.service] [].


(** An IPv4-mapped IPv6 address: it has both a dot and a colon. *)
Definition mapped : string := "::ffff:10.0.0.1/96".

End Sample.

(** ** Notions of the specification *)

(** [c in x] for a character [c]: what the specification calls
    "contains". *)
Fixpoint has_char (c : ascii) (x : string) : bool :=
  match x with
  | EmptyString => false
  | String a x' => Ascii.eqb a c || has_char c x'
  end.

(** The number of newlines of a text, that is, of its lines when it
    ends with one. *)
Fixpoint count_nl (x : string) : nat :=
  match x with
  | EmptyString => 0
  | String a x' => (if Ascii.eqb a (ascii_of_nat 10) then 1 else 0) + count_nl x'
  end.

(** The mtus a link lets an interface see: its own and those of the
    members of its network. *)
Definition link_mtus (ifc : CoreInterface) : list Z :=
  ifc_mtu ifc ::
  match ifc_net ifc with
  | None => []
  | Some n => map ifc_mtu (net_netifs n)
  end.

(** The router id as the specification words it: the addresses of the
    interfaces that are not control interfaces, in interface order; the
    first one that contains a dot, cut at its slash; [0.0.0.0] if there
    is none. *)
Definition routable_addrs (node : CoreNode) : list string :=
  flat_map ifc_addrlist
           (filter (fun i => negb (ifc_control i)) (node_netifs node)).

(** The part of an address before its first slash. *)
Fixpoint before_slash (x : string) : string :=
  match x with
  | EmptyString => EmptyString
  | String c x' => if Ascii.eqb c "/" then EmptyString else String c (before_slash x')
  end.

Definition routerId_spec (node : CoreNode) : string :=
  match List.find (has_char ".") (routable_addrs node) with
  | Some a => before_slash a
  | None => "0.0.0.0"
  end.

(** The service passes the gate of the composer: [zebra] is among its
    declared dependencies. *)
Definition gated (s : CoreService) : bool :=
  mem (name Zebra.service) (dependencies s).

(** Two runs of the service loop, one after the other, as one state. *)
Definition merge (st r : Zebra.ifc_state) : Zebra.ifc_state :=
  Zebra.mkState (Zebra.cfgv4 st ++ Zebra.cfgv4 r)
                (Zebra.cfgv6 st ++ Zebra.cfgv6 r)
                (Zebra.want_ipv4 st || Zebra.want_ipv4 r)
                (Zebra.want_ipv6 st || Zebra.want_ipv6 r).

Definition init_state : Zebra.ifc_state :=
  Zebra.mkState EmptyString EmptyString false false.

(** The addresses of an interface that the composer hands to [addrstr],
    in the order of their statements, given the locals [st] that the
    service loop leaves. *)
Definition rendered_addrs `{CoreLib} (st : Zebra.ifc_state)
  (ifc : CoreInterface) : list string :=
  if ifc_control ifc then ifc_addrlist ifc
  else ((if Zebra.want_ipv4 st then Zebra.ipv4list ifc else [])
        ++ (if Zebra.want_ipv6 st then Zebra.ipv6list ifc else []))%list.

(** ** [class SimpleService] of [configservices/simpleservice.py] *)

Module SimpleService.

Definition name : string := "Simple".
Definition group : string := "SimpleGroup".
Definition directories : list string := ["/etc/quagga"; "/usr/local/lib"].
Definition files : list string := ["test1.sh"; "test2.sh"].

(** The ids of [default_configs], in order. *)
Definition default_configs : list string := ["value1"; "value2"; "value3"].

Definition modes : list (string * list (string * string)) :=
  [ ("mode1", [("value1", "m1"); ("value2", "m1"); ("value3", "m1")]);
    ("mode2", [("value1", "m2"); ("value2", "m2"); ("value3", "m2")]);
    ("mode3", [("value1", "m3"); ("value2", "m3"); ("value3", "m3")]) ].

(** The literal of a template: it opens with a newline and closes with
    the indentation of the closing quotes. *)
Definition template (lines : list string) : string :=
  nl ++ unlines lines ++ "            ".

(** [get_text_template]: a function that falls off its end returns
    [None]. *)
Definition get_text_template (name : string) : option string :=
  if String.eqb name "test1.sh" then
    Some (template [ "            # sample script 1";
                     "            # node id(${node.id}) name(${node.name})";
                     "            # config: ${config}";
                     "            echo hello" ])
  else if String.eqb name "test2.sh" then
    Some (template [ "            # sample script 2";
                     "            # node id(${node.id}) name(${node.name})";
                     "            # config: ${config}";
                     "            echo hello2" ])
  else None.

End SimpleService.

(** ** Further notions used by the properties *)

(** The texts of a list, one after the other. *)
Fixpoint flatten (l : list string) : string :=
  match l with
  | [] => EmptyString
  | a :: l' => a ++ flatten l'
  end.

(** An address is shaped when it contains a dot or a colon. *)
Definition shaped (x : string) : bool := has_char "." x || has_char ":" x.

(** The statement of a shaped address. *)
Definition statement (x : string) : string :=
  if has_char "." x then "ip address " ++ x else "ipv6 address " ++ x.

(** Some member of the network of the interface has another mtu. *)
Definition peer_differs (ifc : CoreInterface) : Prop :=
  exists n i, ifc_net ifc = Some n /\ In i (net_netifs n) /\
              ifc_mtu i <> ifc_mtu ifc.

(** The interfaces that are not control interfaces, in order. *)
Definition routed_netifs (node : CoreNode) : list CoreInterface :=
  filter (fun i => negb (ifc_control i)) (node_netifs node).

(** The addresses with a dot among those of the routed interfaces. *)
Definition dotted_addrs (node : CoreNode) : list string :=
  filter (has_char ".") (routable_addrs node).

(** The interface text of a service, empty where the hook raises. *)
Definition hook_text `{CoreLib} (node : CoreNode) (ifc : CoreInterface)
  (s : CoreService) : string :=
  match generatequaggaifcconfig s node ifc with
  | Ok txt => txt
  | Raise _ => EmptyString
  end.

(** The address passes one of the two family tests of the composer. *)
Definition in_a_family `{CoreLib} (x : string) : bool :=
  is_ipv4_address (hd EmptyString (split "/" x))
  || is_ipv6_address (hd EmptyString (split "/" x)).

(** A text without its first [n] lines. *)
Fixpoint drop_lines (n : nat) (x : string) : string :=
  match n, x with
  | O, _ => x
  | S _, EmptyString => EmptyString
  | S n', String c x' =>
      if Ascii.eqb c (ascii_of_nat 10) then drop_lines n' x' else drop_lines n x'
  end.

Module Topology.

(** Three interfaces of mtu 1500 on one switch. *)
Definition lan_member (n : string) : CoreInterface :=
  mkIfc n 1500 false [] None.
Definition lan : CoreNetwork :=
  mkNet [lan_member "eth0"; lan_member "eth0"; lan_member "eth1"]
        WIRED OTHER_NODE_TYPE.
Definition on_lan : CoreInterface :=
  mkIfc "eth0" 1500 false ["10.0.3.1/24"; "n/a"; "2001:db8:3::1/64"] (Some lan).

(** A wireless interface, and a loopback. *)
Definition wlan : CoreNetwork := mkNet [] WIRELESS WIRELESS_LAN.
Definition on_wlan : CoreInterface :=
  mkIfc "eth1" 1500 false ["10.0.4.1/24"] (Some wlan).
Definition lo : CoreInterface := mkIfc "lo" 65536 false ["127.0.0.1/8"] None.
Definition ctrl : CoreInterface :=
  mkIfc "ctrl0" 1500 true ["172.16.0.1/24"] None.

(** A node with every routing service of [quagga.py] enabled. *)
Definition full_node : CoreNode :=
  mkNode 9 [lo; on_lan; ctrl; on_wlan]
         [ Zebra.service; Ospfv2.service; Ospfv3.service; Ospfv3mdr.service;
           Bgp.service; Rip.service; Ripng.service; Babel.service;
           Xpimd.service ]
         [("quagga_bin_search", "/opt/quagga/bin")].

(** A node with no interface, no service and no option. *)
Definition bare : CoreNode := mkNode 0 [] [] [].

(** A node without a single address with a dot on a routed interface. *)
Definition v6_only : CoreNode :=
  mkNode 10 [mkIfc "eth0" 1500 false ["2001:db8:5::1/64"] None; ctrl]
         [Zebra.service; Ospfv2.service] [].

End Topology.

(** * Properties *)

(** ** Strings *)

Lemma append_nil_r (s : string) : s ++ EmptyString = s.
Proof. induction s as [|a s IH]; simpl; [reflexivity | now rewrite IH]. Qed.

Lemma append_assoc (s1 s2 s3 : string) : (s1 ++ s2) ++ s3 = s1 ++ s2 ++ s3.
Proof. induction s1 as [|a s1 IH]; simpl; [reflexivity | now rewrite IH]. Qed.

(** Texts built by appending, brought to one right-nested form. *)
Ltac str_norm :=
  repeat first [ rewrite append_assoc
               | rewrite append_nil_r
               | progress cbn [append] ].

Lemma prefix_char (c a : ascii) (x : string) :
  prefix (String c EmptyString) (String a x) = Ascii.eqb a c.
Proof.
  change (prefix (String c EmptyString) (String a x))
    with (if ascii_dec c a then prefix EmptyString x else false).
  destruct (ascii_dec c a) as [->|Hne].
  - rewrite Ascii.eqb_refl. now destruct x.
  - symmetry. apply Ascii.eqb_neq. congruence.
Qed.

Lemma index_char (c : ascii) (x : string) :
  match index 0 (String c EmptyString) x with
  | Some _ => true
  | None => false
  end = has_char c x.
Proof.
  induction x as [|a x IH].
  - reflexivity.
  - cbn [index has_char]. rewrite prefix_char.
    destruct (Ascii.eqb a c); [reflexivity|].
    cbn [orb]. rewrite <- IH.
    now destruct (index 0 (String c EmptyString) x).
Qed.

(** [x.find(c) >= 0] says that [x] contains the character [c]. *)
Lemma find_has_char (c : ascii) (x : string) :
  (find (String c EmptyString) x >=? 0)%Z = has_char c x.
Proof.
  rewrite <- index_char. unfold find.
  destruct (index 0 (String c EmptyString) x) as [n|].
  - apply Z.geb_le. lia.
  - reflexivity.
Qed.

Lemma count_nl_app (x y : string) :
  count_nl (x ++ y) = (count_nl x + count_nl y)%nat.
Proof. induction x as [|a x IH]; simpl; [reflexivity | rewrite IH; lia]. Qed.

Lemma count_nl_uint (d : Decimal.uint) :
  count_nl (NilEmpty.string_of_uint d) = 0%nat.
Proof. induction d; simpl; auto. Qed.

(** A number printed in decimal holds no newline. *)
Lemma count_nl_of_int (n : Z) : count_nl (of_int n) = 0%nat.
Proof.
  unfold of_int. destruct (Z.to_int n) as [d|d]; simpl.
  - destruct d; try reflexivity; apply (count_nl_uint (_ d)).
  - destruct d; try reflexivity; apply (count_nl_uint (_ d)).
Qed.

(** ** [Zebra.addrstr] *)

Lemma addrstr_cases (x : string) :
  Zebra.addrstr x =
  if has_char "." x then Ok ("ip address " ++ x)
  else if has_char ":" x then Ok ("ipv6 address " ++ x)
  else Raise (ValueError "invalid address: %s" [x]).
Proof.
  unfold Zebra.addrstr. now rewrite !find_has_char.
Qed.

(** C10. An address that contains both a dot and a colon is rendered as
    an IPv4 address, [ip address <addr>]: the test for the dot comes
    first. *)
Theorem addrstr_dot_and_colon (x : string) :
  has_char "." x = true -> has_char ":" x = true ->
  Zebra.addrstr x = Ok ("ip address " ++ x).
Proof.
  intros Hdot _. rewrite addrstr_cases. now rewrite Hdot.
Qed.

Lemma addrstr_dot_and_colon_witness :
  has_char "." Sample.mapped = true /\ has_char ":" Sample.mapped = true /\
  Zebra.addrstr Sample.mapped = Ok "ip address ::ffff:10.0.0.1/96".
Proof.
  split; [reflexivity|]. split; [reflexivity|].
  apply (addrstr_dot_and_colon Sample.mapped); reflexivity.
Defined.

(** ** Loops that only append to [cfg] *)

Lemma fold_left_appending {A : Type} (body : string -> A -> string)
  (g : A -> string) :
  (forall cfg a, body cfg a = cfg ++ g a) ->
  forall l cfg, fold_left body l cfg = cfg ++ fold_left body l EmptyString.
Proof.
  intros Hb l. induction l as [|a l IH]; intros cfg; simpl.
  - now rewrite append_nil_r.
  - rewrite IH, (IH (body EmptyString a)), !Hb. simpl.
    now rewrite append_assoc.
Qed.

Lemma foldM_appending {A : Type} (body : string -> A -> result string) :
  (forall cfg a, body cfg a = r <- body EmptyString a ;; Ok (cfg ++ r)) ->
  forall l cfg,
    foldM body l cfg = r <- foldM body l EmptyString ;; Ok (cfg ++ r).
Proof.
  intros Hb l. induction l as [|a l IH]; intros cfg; simpl.
  - now rewrite append_nil_r.
  - rewrite (Hb cfg a). destruct (body EmptyString a) as [r|e]; simpl; [|reflexivity].
    rewrite IH, (IH r).
    destruct (foldM body l EmptyString) as [r'|e]; simpl; [|reflexivity].
    now rewrite append_assoc.
Qed.

Lemma foldM_app {A S : Type} (body : S -> A -> result S) (l1 l2 : list A) (s : S) :
  foldM body (l1 ++ l2) s = s' <- foldM body l1 s ;; foldM body l2 s'.
Proof.
  revert s. induction l1 as [|a l1 IH]; intros s; simpl; [reflexivity|].
  destruct (body s a); simpl; [apply IH | reflexivity].
Qed.

(** ** OSPFv2: the MTU check *)

(** C1, as the code has it. For an interface with no link the OSPFv2
    interface hook emits [ip ospf mtu-ignore] exactly when the mtu of the
    interface is not 1500; with mtu 1500 and no link it emits nothing. *)
Theorem ospfv2_ifcconfig_no_link (node : CoreNode) (name : string) (mtu : Z)
  (control : bool) (addrlist : list string) :
  Ospfv2.generatequaggaifcconfig node (mkIfc name mtu control addrlist None) =
  if (mtu =? 1500)%Z then EmptyString else "  ip ospf mtu-ignore" ++ nl.
Proof.
  unfold Ospfv2.generatequaggaifcconfig, Ospfv2.mtucheck. simpl.
  now destruct (mtu =? 1500)%Z.
Qed.

(** C1 fails as stated: [eth0] of the sample node has mtu 1500 and no
    link, and the hook returns the empty text, not the mtu-ignore line. *)
Lemma ospfv2_no_link_1500_silent :
  ifc_net Sample.eth0 = None /\ ifc_mtu Sample.eth0 = 1500%Z /\
  Ospfv2.generatequaggaifcconfig Sample.node1 Sample.eth0 = EmptyString /\
  Ospfv2.generatequaggaifcconfig Sample.node1 Sample.eth0
    <> "  ip ospf mtu-ignore" ++ nl.
Proof.
  repeat split. discriminate.
Qed.

(** ** OSPFv3: the minimum MTU and the ifmtu line *)

Lemma minmtu_fold_in (l : list CoreInterface) (m : Z) :
  In (fold_left (fun mtu i => if (ifc_mtu i <? mtu)%Z then ifc_mtu i else mtu) l m)
     (m :: map ifc_mtu l).
Proof.
  revert m. induction l as [|i l IH]; intros m; simpl.
  - now left.
  - destruct (IH (if (ifc_mtu i <? m)%Z then ifc_mtu i else m)) as [Heq|Hin].
    + destruct (ifc_mtu i <? m)%Z; rewrite <- Heq; auto.
    + auto.
Qed.

Lemma minmtu_fold_le (l : list CoreInterface) (m k : Z) :
  In k (m :: map ifc_mtu l) ->
  (fold_left (fun mtu i => if (ifc_mtu i <? mtu)%Z then ifc_mtu i else mtu) l m <= k)%Z.
Proof.
  revert m k. induction l as [|i l IH]; intros m k; simpl.
  - intros [->|[]]. lia.
  - set (m' := if (ifc_mtu i <? m)%Z then ifc_mtu i else m).
    assert (Hm' : (m' <= m /\ m' <= ifc_mtu i)%Z)
      by (subst m'; destruct (Z.ltb_spec (ifc_mtu i) m); lia).
    intros [->|[<-|Hin]].
    + specialize (IH m' m' (or_introl eq_refl)). lia.
    + specialize (IH m' m' (or_introl eq_refl)). lia.
    + apply IH. now right.
Qed.

(** C7. [minmtu] is the least mtu among the interface and the members of
    its network; the OSPFv3 interface hook emits the one line
    [ipv6 ospf6 ifmtu <minmtu>] when that minimum is below the mtu of the
    interface and nothing otherwise; without a link it emits nothing. *)
Theorem ospfv3_ifmtu_line (node : CoreNode) (ifc : CoreInterface) :
  let m := Ospfv3.minmtu ifc in
  let out := Ospfv3.generatequaggaifcconfig node ifc in
  In m (link_mtus ifc) /\
  (forall k, In k (link_mtus ifc) -> (m <= k)%Z) /\
  ((m < ifc_mtu ifc)%Z ->
     out = "  ipv6 ospf6 ifmtu " ++ of_int m ++ nl /\ count_nl out = 1%nat) /\
  (~ (m < ifc_mtu ifc)%Z -> out = EmptyString) /\
  (ifc_net ifc = None -> out = EmptyString).
Proof.
  cbv zeta.
  unfold Ospfv3.generatequaggaifcconfig, Ospfv3.mtucheck, Ospfv3.minmtu, link_mtus.
  destruct ifc as [nm mtu ctl addrs [n|]]; simpl.
  - split; [apply minmtu_fold_in|].
    split; [intros k; apply minmtu_fold_le|].
    set (m := fold_left _ _ _).
    destruct (Z.ltb_spec m mtu); repeat split; intros; try lia; try discriminate.
    simpl. rewrite count_nl_app, count_nl_of_int. reflexivity.
  - rewrite Z.ltb_irrefl.
    repeat split; auto; try lia.
Qed.

Lemma ospfv3_ifmtu_line_witness :
  Ospfv3.minmtu Sample.jumbo = 1500%Z /\
  Ospfv3.generatequaggaifcconfig Sample.node_v3 Sample.jumbo
  = "  ipv6 ospf6 ifmtu 1500" ++ nl.
Proof.
  split; [reflexivity|].
  apply (proj1 (proj2 (proj2 (ospfv3_ifmtu_line Sample.node_v3 Sample.jumbo)))).
  vm_compute. reflexivity.
Defined.

(** ** The router id *)

Lemma split_hd_before_slash (x : string) :
  hd EmptyString (split "/" x) = before_slash x.
Proof.
  induction x as [|c x IH]; simpl; [reflexivity|].
  destruct (Ascii.eqb c "/"); [reflexivity|].
  destruct (split "/" x) as [|w ws]; simpl in *; now rewrite <- IH.
Qed.

Lemma find_app_first {A : Type} (p : A -> bool) (l1 l2 : list A) :
  List.find p (l1 ++ l2) =
  match List.find p l1 with
  | Some a => Some a
  | None => List.find p l2
  end.
Proof.
  induction l1 as [|a l1 IH]; simpl; [reflexivity|].
  now destruct (p a).
Qed.

Lemma find_first {A : Type} (p : A -> bool) (l pre post : list A) (a : A) :
  l = (pre ++ a :: post)%list ->
  (forall b, In b pre -> p b = false) -> p a = true ->
  List.find p l = Some a.
Proof.
  intros -> Hpre Ha. induction pre as [|b pre IH]; simpl.
  - now rewrite Ha.
  - rewrite (Hpre b (or_introl eq_refl)). apply IH.
    intros c Hc. apply Hpre. now right.
Qed.

Lemma find_none_all {A : Type} (p : A -> bool) (l : list A) :
  (forall a, In a l -> p a = false) -> List.find p l = None.
Proof.
  induction l as [|a l IH]; intros Hall; simpl; [reflexivity|].
  rewrite (Hall a (or_introl eq_refl)). apply IH.
  intros b Hb. apply Hall. now right.
Qed.

Lemma routerid_addrs_find (addrs : list string) :
  QuaggaService.routerid_addrs addrs =
  option_map before_slash (List.find (has_char ".") addrs).
Proof.
  induction addrs as [|a addrs IH]; simpl; [reflexivity|].
  rewrite find_has_char, split_hd_before_slash.
  now destruct (has_char "." a).
Qed.

Lemma routerid_is_spec (node : CoreNode) :
  QuaggaService.routerid node = routerId_spec node.
Proof.
  unfold QuaggaService.routerid, routerId_spec, routable_addrs.
  induction (node_netifs node) as [|ifc ifcs IH]; simpl; [reflexivity|].
  destruct (ifc_control ifc); simpl; [exact IH|].
  rewrite find_app_first, routerid_addrs_find.
  now destruct (List.find (has_char ".") (ifc_addrlist ifc)).
Qed.

Section RouterId.
Context `{CoreLib}.

Lemma network_lines_appending (cfg : string) (ifc : CoreInterface) :
  Ospfv2.network_lines cfg ifc =
  r <- Ospfv2.network_lines EmptyString ifc ;; Ok (cfg ++ r).
Proof.
  unfold Ospfv2.network_lines.
  destruct (ifc_control ifc); simpl; [now rewrite append_nil_r|].
  apply foldM_appending. clear. intros cfg a.
  destruct (find "." a <? 0)%Z; simpl; [now rewrite append_nil_r|].
  destruct (Ipv4Prefix a); reflexivity.
Qed.

(** C6. [routerid] is the first address with a dot among the addresses
    of the interfaces that are not control interfaces, in interface
    order, cut at its slash, and [0.0.0.0] when there is none; the global
    blocks of OSPFv2, OSPFv3 and BGP embed that value. *)
Theorem routerid_first_ipv4_or_fallback (node : CoreNode) :
  QuaggaService.routerid node = routerId_spec node /\
  (forall pre a post,
     routable_addrs node = (pre ++ a :: post)%list ->
     (forall b, In b pre -> has_char "." b = false) ->
     has_char "." a = true ->
     QuaggaService.routerid node = before_slash a) /\
  ((forall a, In a (routable_addrs node) -> has_char "." a = false) ->
     QuaggaService.routerid node = "0.0.0.0") /\
  Ospfv2.generatequaggaconfig node =
    (nets <- foldM Ospfv2.network_lines (node_netifs node) EmptyString ;;
     Ok ("router ospf" ++ nl ++ "  router-id " ++ routerId_spec node ++ nl
         ++ nets ++ "!" ++ nl)) /\
  (exists ifcs,
     Ospfv3.generatequaggaconfig node =
     "router ospf6" ++ nl ++ "  router-id " ++ routerId_spec node ++ nl
     ++ ifcs ++ "!" ++ nl) /\
  Bgp.generatequaggaconfig node =
    "!" ++ nl ++ "! BGP configuration" ++ nl ++ "!" ++ nl
    ++ "! You should configure the AS number below," ++ nl
    ++ "! along with this router's peers." ++ nl ++ "!" ++ nl
    ++ "router bgp " ++ of_int (id node) ++ nl
    ++ "  bgp router-id " ++ routerId_spec node ++ nl
    ++ "  redistribute connected" ++ nl
    ++ "! neighbor 1.2.3.4 remote-as 555" ++ nl ++ "!" ++ nl.
Proof.
  split; [apply routerid_is_spec|].
  split; [intros pre a post Hsplit Hpre Ha; rewrite routerid_is_spec;
          unfold routerId_spec;
          now rewrite (find_first _ _ _ _ _ Hsplit Hpre Ha)|].
  split; [intros Hnone; rewrite routerid_is_spec; unfold routerId_spec;
          now rewrite (find_none_all _ _ Hnone)|].
  split; [|split].
  - unfold Ospfv2.generatequaggaconfig. cbv zeta.
    rewrite (foldM_appending _ network_lines_appending), routerid_is_spec.
    destruct (foldM Ospfv2.network_lines (node_netifs node) EmptyString) as [r|e];
      simpl; [|reflexivity].
    now rewrite !append_assoc.
  - unfold Ospfv3.generatequaggaconfig. cbv zeta.
    rewrite fold_left_appending
      with (g := fun ifc => if ifc_control ifc then EmptyString
                            else "  interface " ++ ifc_name ifc ++ " area 0.0.0.0" ++ nl).
    + rewrite routerid_is_spec, !append_assoc. eexists. reflexivity.
    + intros cfg a. destruct (ifc_control a); [now rewrite append_nil_r | reflexivity].
  - unfold Bgp.generatequaggaconfig. cbv zeta.
    now rewrite routerid_is_spec, !append_assoc.
Qed.

End RouterId.

Lemma routerid_first_ipv4_or_fallback_witness :
  routable_addrs Sample.node_bgp = ["10.0.2.1/24"; "2001:db8:2::1/64"] /\
  QuaggaService.routerid Sample.node_bgp = "10.0.2.1" /\
  routable_addrs (mkNode 8 [Sample.eth1] [] []) = [] /\
  QuaggaService.routerid (mkNode 8 [Sample.eth1] [] []) = "0.0.0.0".
Proof.
  split; [reflexivity|]. split; [|split; [reflexivity|]].
  - apply (proj1 (proj2 (@routerid_first_ipv4_or_fallback spec_lib Sample.node_bgp))
                 [] "10.0.2.1/24" ["2001:db8:2::1/64"]).
    + reflexivity.
    + intros b [].
    + reflexivity.
  - apply (proj1 (proj2 (proj2 (@routerid_first_ipv4_or_fallback spec_lib
                                  (mkNode 8 [Sample.eth1] [] []))))).
    intros a [].
Defined.

(** ** [Zebra.generate_config] *)

Section GenerateConfig.
Context `{CoreLib}.

(** C9. [generate_config] returns the composed configuration for
    [Quagga.conf], the boot script for [quaggaboot.sh] and the fixed line
    for [vtysh.conf]; for every other file name it raises [ValueError]
    and returns nothing. *)
Theorem generate_config_by_filename (node : CoreNode) :
  Zebra.generate_config node "/usr/local/etc/quagga/Quagga.conf"
    = Zebra.generateQuaggaConf node /\
  Zebra.generate_config node "quaggaboot.sh"
    = Ok (Zebra.generateQuaggaBoot node) /\
  Zebra.generate_config node "/usr/local/etc/quagga/vtysh.conf"
    = Ok ("service integrated-vtysh-config" ++ nl) /\
  (forall filename,
     ~ In filename Zebra.configs ->
     Zebra.generate_config node filename =
     Raise (ValueError "file name (%s) is not a known configuration: %s"
                       (filename :: Zebra.configs))).
Proof.
  repeat split.
  intros filename Hnot. unfold Zebra.generate_config.
  destruct (String.eqb_spec filename (nth 0 Zebra.configs EmptyString)) as [->|_].
  { exfalso. apply Hnot. simpl. auto. }
  destruct (String.eqb_spec filename (nth 1 Zebra.configs EmptyString)) as [->|_].
  { exfalso. apply Hnot. simpl. auto. }
  destruct (String.eqb_spec filename (nth 2 Zebra.configs EmptyString)) as [->|_].
  { exfalso. apply Hnot. simpl. auto. }
  reflexivity.
Qed.

End GenerateConfig.

Lemma generate_config_by_filename_witness :
  ~ In "Quagga.conf" Zebra.configs /\
  @Zebra.generate_config spec_lib Sample.node1 "Quagga.conf" =
  Raise (ValueError "file name (%s) is not a known configuration: %s"
                    ("Quagga.conf" :: Zebra.configs)).
Proof.
  assert (Hnot : ~ In "Quagga.conf" Zebra.configs).
  { simpl. intros [E|[E|[E|[]]]]; discriminate E. }
  split; [exact Hnot|].
  exact (proj2 (proj2 (proj2 (@generate_config_by_filename spec_lib Sample.node1)))
               "Quagga.conf" Hnot).
Defined.

(** ** The composer: the loop over the services *)

Lemma foldM_ext {A S : Type} (f g : S -> A -> result S) (l : list A) (s : S) :
  (forall s a, f s a = g s a) -> foldM f l s = foldM g l s.
Proof.
  intros Hfg. revert s. induction l as [|a l IH]; intros s; simpl; [reflexivity|].
  rewrite Hfg. destruct (g s a); simpl; [apply IH | reflexivity].
Qed.

Lemma merge_init_l (r : Zebra.ifc_state) : merge init_state r = r.
Proof. now destruct r. Qed.

Lemma merge_init_r (st : Zebra.ifc_state) : merge st init_state = st.
Proof.
  destruct st. unfold merge. simpl. now rewrite !append_nil_r, !orb_false_r.
Qed.

Lemma merge_assoc (a b c : Zebra.ifc_state) :
  merge (merge a b) c = merge a (merge b c).
Proof.
  unfold merge. simpl. now rewrite !append_assoc, !orb_assoc.
Qed.

Section ServiceLoop.
Context `{CoreLib}.
Variables (node : CoreNode) (ifc : CoreInterface).

Lemma service_step_skip (st : Zebra.ifc_state) (s : CoreService) :
  gated s = false -> Zebra.service_step node ifc st s = Ok st.
Proof.
  unfold Zebra.service_step, gated. now intros ->.
Qed.

Lemma service_step_merge (st : Zebra.ifc_state) (s : CoreService) :
  Zebra.service_step node ifc st s =
  r <- Zebra.service_step node ifc init_state s ;; Ok (merge st r).
Proof.
  unfold Zebra.service_step.
  destruct (negb _); simpl; [now rewrite merge_init_r|].
  destruct (generatequaggaifcconfig s node ifc) as [txt|e]; simpl; [|reflexivity].
  unfold merge.
  destruct (ipv4_routing s), (ipv6_routing s); simpl;
    now rewrite ?append_nil_r, ?orb_true_r, ?orb_false_r.
Qed.

Lemma service_loop_merge (l : list CoreService) (st : Zebra.ifc_state) :
  foldM (Zebra.service_step node ifc) l st =
  r <- foldM (Zebra.service_step node ifc) l init_state ;; Ok (merge st r).
Proof.
  revert st. induction l as [|s l IH]; intros st; simpl.
  - now rewrite merge_init_r.
  - rewrite (service_step_merge st s).
    destruct (Zebra.service_step node ifc init_state s) as [r|e]; simpl; [|reflexivity].
    rewrite IH, (IH r).
    destruct (foldM (Zebra.service_step node ifc) l init_state) as [r'|e];
      simpl; [|reflexivity].
    now rewrite merge_assoc.
Qed.

End ServiceLoop.

(** ** The composer: one interface block *)

Section InterfaceBlock.
Context `{CoreLib}.

Lemma service_loop_wants (node : CoreNode) (ifc : CoreInterface)
  (l : list CoreService) (st st' : Zebra.ifc_state) :
  foldM (Zebra.service_step node ifc) l st = Ok st' ->
  Zebra.want_ipv4 st' =
    Zebra.want_ipv4 st || existsb (fun s => gated s && ipv4_routing s) l /\
  Zebra.want_ipv6 st' =
    Zebra.want_ipv6 st || existsb (fun s => gated s && ipv6_routing s) l.
Proof.
  revert st. induction l as [|s l IH]; intros st; simpl.
  - intros [= <-]. now rewrite !orb_false_r.
  - unfold Zebra.service_step at 1. fold (gated s).
    destruct (gated s); simpl; [|apply IH].
    destruct (generatequaggaifcconfig s node ifc) as [txt|e]; simpl; [|discriminate].
    destruct (ipv4_routing s), (ipv6_routing s); simpl; intros Hl;
      destruct (IH _ Hl) as [-> ->]; simpl;
      now rewrite ?orb_true_r, ?orb_false_r.
Qed.

(** The block of a control interface: the header and one statement per
    address, and nothing after them. *)
Lemma ifc_body_control (node : CoreNode) (cfg : string) (ifc : CoreInterface) :
  ifc_control ifc = true ->
  Zebra.ifc_body node cfg ifc =
  lines <- Zebra.addr_lines (ifc_addrlist ifc) ;;
  Ok (cfg ++ "interface " ++ ifc_name ifc ++ nl ++ lines).
Proof.
  intros Hc. unfold Zebra.ifc_body. cbv zeta. rewrite Hc.
  destruct (Zebra.addr_lines (ifc_addrlist ifc)); cbn [bind]; [|reflexivity].
  str_norm. reflexivity.
Qed.

(** The block of any other interface, given the locals [st] that the
    loop over the services leaves. *)
Lemma ifc_body_routed (node : CoreNode) (cfg : string) (ifc : CoreInterface)
  (st : Zebra.ifc_state) :
  ifc_control ifc = false ->
  foldM (Zebra.service_step node ifc) (services node) init_state = Ok st ->
  Zebra.ifc_body node cfg ifc =
  l4 <- (if Zebra.want_ipv4 st
         then lines <- Zebra.addr_lines (Zebra.ipv4list ifc) ;;
              Ok (lines ++ Zebra.cfgv4 st)
         else Ok EmptyString) ;;
  l6 <- (if Zebra.want_ipv6 st
         then lines <- Zebra.addr_lines (Zebra.ipv6list ifc) ;;
              Ok (lines ++ Zebra.cfgv6 st)
         else Ok EmptyString) ;;
  Ok (cfg ++ "interface " ++ ifc_name ifc ++ nl ++ l4 ++ l6 ++ "!" ++ nl).
Proof.
  intros Hc Hloop. unfold Zebra.ifc_body. cbv zeta. rewrite Hc.
  change (Zebra.mkState EmptyString EmptyString false false) with init_state.
  rewrite Hloop. cbn [bind].
  destruct (Zebra.want_ipv4 st), (Zebra.want_ipv6 st);
    repeat (match goal with
            | |- context [Zebra.addr_lines ?l] =>
                destruct (Zebra.addr_lines l); cbn [bind]; [|reflexivity]
            end);
    cbn [bind]; str_norm; reflexivity.
Qed.

Lemma ifc_body_appending (node : CoreNode) (cfg : string) (ifc : CoreInterface) :
  Zebra.ifc_body node cfg ifc =
  r <- Zebra.ifc_body node EmptyString ifc ;; Ok (cfg ++ r).
Proof.
  destruct (ifc_control ifc) eqn:Hc.
  - rewrite !ifc_body_control by exact Hc.
    now destruct (Zebra.addr_lines (ifc_addrlist ifc)).
  - destruct (foldM (Zebra.service_step node ifc) (services node) init_state)
      as [st|e] eqn:Hloop.
    + rewrite !(ifc_body_routed node _ ifc st) by assumption.
      destruct (Zebra.want_ipv4 st), (Zebra.want_ipv6 st);
        repeat (match goal with
                | |- context [Zebra.addr_lines ?l] =>
                    destruct (Zebra.addr_lines l); cbn [bind]; [|reflexivity]
                end);
        cbn [bind]; str_norm; reflexivity.
    + unfold Zebra.ifc_body. cbv zeta. rewrite Hc.
      change (Zebra.mkState EmptyString EmptyString false false) with init_state.
      now rewrite Hloop.
Qed.

Lemma global_body_appending (node : CoreNode) (cfg : string) (s : CoreService) :
  Zebra.global_body node cfg s =
  r <- Zebra.global_body node EmptyString s ;; Ok (cfg ++ r).
Proof.
  unfold Zebra.global_body.
  destruct (negb _); simpl; [now rewrite append_nil_r|].
  now destruct (generatequaggaconfig s node).
Qed.

(** The composed text: the interface blocks, then the global blocks. *)
Lemma generateQuaggaConf_blocks (node : CoreNode) :
  Zebra.generateQuaggaConf node =
  ifcs <- foldM (Zebra.ifc_body node) (node_netifs node) EmptyString ;;
  globals <- foldM (Zebra.global_body node) (services node) EmptyString ;;
  Ok (ifcs ++ globals).
Proof.
  unfold Zebra.generateQuaggaConf.
  destruct (foldM (Zebra.ifc_body node) (node_netifs node) EmptyString);
    simpl; [|reflexivity].
  apply (foldM_appending _ (global_body_appending node)).
Qed.

End InterfaceBlock.

(** ** Services that declare both routing families *)

Section BothFamilies.
Context `{CoreLib}.

(** C4. A service that passes the gate and declares both [ipv4_routing]
    and [ipv6_routing] has its interface text appended to [cfgv6] only:
    [cfgv4] is what the other services left, and both want flags are set,
    so that the block of the interface carries the IPv4 address
    statements as well as the IPv6 ones. *)
Theorem both_families_text_goes_to_cfgv6 (node : CoreNode)
  (ifc : CoreInterface) (s : CoreService) (txt : string) :
  gated s = true -> ipv4_routing s = true -> ipv6_routing s = true ->
  generatequaggaifcconfig s node ifc = Ok txt ->
  (forall st,
     Zebra.service_step node ifc st s =
     Ok (Zebra.mkState (Zebra.cfgv4 st) (Zebra.cfgv6 st ++ txt) true true)) /\
  (forall l1 l2 st,
     foldM (Zebra.service_step node ifc) (l1 ++ s :: l2) init_state = Ok st ->
     exists r1 r2,
       foldM (Zebra.service_step node ifc) l1 init_state = Ok r1 /\
       foldM (Zebra.service_step node ifc) l2 init_state = Ok r2 /\
       Zebra.cfgv4 st = Zebra.cfgv4 r1 ++ Zebra.cfgv4 r2 /\
       Zebra.cfgv6 st = Zebra.cfgv6 r1 ++ txt ++ Zebra.cfgv6 r2 /\
       Zebra.want_ipv4 st = true /\ Zebra.want_ipv6 st = true) /\
  (forall cfg st,
     In s (services node) -> ifc_control ifc = false ->
     foldM (Zebra.service_step node ifc) (services node) init_state = Ok st ->
     Zebra.ifc_body node cfg ifc =
     l4 <- Zebra.addr_lines (Zebra.ipv4list ifc) ;;
     l6 <- Zebra.addr_lines (Zebra.ipv6list ifc) ;;
     Ok (cfg ++ "interface " ++ ifc_name ifc ++ nl
         ++ l4 ++ Zebra.cfgv4 st ++ l6 ++ Zebra.cfgv6 st ++ "!" ++ nl)).
Proof.
  intros Hg H4 H6 Htxt.
  assert (Hstep : forall st,
             Zebra.service_step node ifc st s =
             Ok (Zebra.mkState (Zebra.cfgv4 st) (Zebra.cfgv6 st ++ txt) true true)).
  { intros st. unfold Zebra.service_step. fold (gated s).
    rewrite Hg, Htxt, H4, H6. reflexivity. }
  split; [exact Hstep|]. split.
  - intros l1 l2 st. rewrite foldM_app.
    destruct (foldM (Zebra.service_step node ifc) l1 init_state) as [r1|e];
      cbn [bind foldM]; [|discriminate].
    rewrite Hstep. cbn [bind]. rewrite service_loop_merge.
    destruct (foldM (Zebra.service_step node ifc) l2 init_state) as [r2|e];
      cbn [bind]; [|discriminate].
    intros [= <-]. exists r1, r2. unfold merge. cbn.
    rewrite append_assoc. repeat split.
  - intros cfg st Hin Hc Hloop.
    destruct (service_loop_wants _ _ _ _ _ Hloop) as [Hw4 Hw6].
    assert (Hex : forall p, p s = true ->
                            existsb (fun s => gated s && p s) (services node) = true).
    { intros p Hp. apply existsb_exists. exists s. now rewrite Hg, Hp. }
    rewrite Hex in Hw4 by exact H4. rewrite Hex in Hw6 by exact H6.
    cbn in Hw4, Hw6.
    rewrite (ifc_body_routed node cfg ifc st Hc Hloop), Hw4, Hw6.
    destruct (Zebra.addr_lines (Zebra.ipv4list ifc)); cbn [bind]; [|reflexivity].
    destruct (Zebra.addr_lines (Zebra.ipv6list ifc)); cbn [bind]; [|reflexivity].
    str_norm. reflexivity.
Qed.

End BothFamilies.

(** The services of [quagga.py] that declare both families and pass
    the gate. *)
Fact services_with_both_families :
  Forall (fun s => gated s && ipv4_routing s && ipv6_routing s = true)
         [Ospfv3.service; Ospfv3mdr.service; Bgp.service].
Proof. repeat constructor. Qed.

Lemma both_families_text_goes_to_cfgv6_witness :
  @Zebra.service_step spec_lib Sample.node_bgp Sample.dual
     (Zebra.mkState "  v4 text" "  v6 text" false false) Ospfv3mdr.service =
  Ok (Zebra.mkState "  v4 text"
        ("  v6 text" ++ "  ipv6 ospf6 instance-id 65" ++ nl) true true).
Proof.
  apply (proj1 (@both_families_text_goes_to_cfgv6 spec_lib Sample.node_bgp
                  Sample.dual Ospfv3mdr.service
                  ("  ipv6 ospf6 instance-id 65" ++ nl)
                  eq_refl eq_refl eq_refl eq_refl)).
Defined.

(** ** Which addresses get a statement *)


Section RenderedAddresses.
Context `{CoreLib}.


End RenderedAddresses.



(** ** The separator after an interface block *)

(** C2, at the node of the end-to-end scenario: the block of the control
    interface [eth1] ends with its address statement, and the global
    block of OSPFv2 follows with no [!] line in between; the block of
    [eth0] has its [!]. *)
Theorem control_interface_block_has_no_separator :
  ifc_control Sample.eth1 = true /\
  @Zebra.generateQuaggaConf spec_lib Sample.node1 =
  Ok (unlines [ "interface eth0";
                "  ip address 10.0.0.1/24";
                "!";
                "interface eth1";
                "  ip address 192.168.0.1/24";
                "router ospf";
                "  router-id 10.0.0.1";
                "  network 10.0.0.1/24 area 0";
                "!" ]).
Proof.
  split; reflexivity.
Qed.

(** ** The gate on the dependencies *)

Section DependencyGate.
Context `{CoreLib}.

Lemma ifc_hook_ignores_services (s : CoreService) (node : CoreNode)
  (l : list CoreService) (ifc : CoreInterface) :
  generatequaggaifcconfig s (with_services node l) ifc =
  generatequaggaifcconfig s node ifc.
Proof. unfold generatequaggaifcconfig. now destruct (cls s). Qed.

Lemma global_hook_ignores_services (s : CoreService) (node : CoreNode)
  (l : list CoreService) :
  generatequaggaconfig s (with_services node l) = generatequaggaconfig s node.
Proof. unfold generatequaggaconfig. now destruct (cls s). Qed.

Lemma service_step_ignores_services (node : CoreNode) (l : list CoreService)
  (ifc : CoreInterface) (st : Zebra.ifc_state) (s : CoreService) :
  Zebra.service_step (with_services node l) ifc st s =
  Zebra.service_step node ifc st s.
Proof.
  unfold Zebra.service_step. now rewrite ifc_hook_ignores_services.
Qed.

Lemma service_loop_drop (node : CoreNode) (ifc : CoreInterface)
  (l1 l2 : list CoreService) (s : CoreService) (st : Zebra.ifc_state) :
  gated s = false ->
  foldM (Zebra.service_step node ifc) (l1 ++ s :: l2) st =
  foldM (Zebra.service_step node ifc) (l1 ++ l2) st.
Proof.
  intros Hg. rewrite !foldM_app.
  destruct (foldM (Zebra.service_step node ifc) l1 st) as [r|e];
    cbn [bind foldM]; [|reflexivity].
  now rewrite service_step_skip.
Qed.

Lemma global_loop_drop (node : CoreNode) (l1 l2 : list CoreService)
  (s : CoreService) (cfg : string) :
  gated s = false ->
  foldM (Zebra.global_body node) (l1 ++ s :: l2) cfg =
  foldM (Zebra.global_body node) (l1 ++ l2) cfg.
Proof.
  intros Hg. rewrite !foldM_app.
  destruct (foldM (Zebra.global_body node) l1 cfg) as [r|e];
    cbn [bind foldM]; [|reflexivity].
  unfold Zebra.global_body at 1. fold (gated s). now rewrite Hg.
Qed.

(** C5, as the code has it. The gate of the composer is that [zebra] is
    among the declared dependencies of the service. A service that does
    not declare it contributes nothing: the composed configuration is
    the one of the node without that service. *)
Theorem service_without_zebra_dependency_contributes_nothing
  (node : CoreNode) (l1 l2 : list CoreService) (s : CoreService) :
  mem "zebra" (dependencies s) = false ->
  Zebra.generateQuaggaConf (with_services node (l1 ++ s :: l2)) =
  Zebra.generateQuaggaConf (with_services node (l1 ++ l2)).
Proof.
  intros Hg. change (gated s = false) in Hg.
  unfold Zebra.generateQuaggaConf.
  change (node_netifs (with_services node ?l)) with (node_netifs node).
  change (services (with_services node ?l)) with l.
  assert (Hifc : forall l cfg ifc,
             Zebra.ifc_body (with_services node l) cfg ifc =
             (let cfg := cfg ++ "interface " ++ ifc_name ifc ++ nl in
              if ifc_control ifc then
                lines <- Zebra.addr_lines (ifc_addrlist ifc) ;; Ok (cfg ++ lines)
              else
                st <- foldM (Zebra.service_step node ifc) l init_state ;;
                cfg <- (if Zebra.want_ipv4 st
                        then lines <- Zebra.addr_lines (Zebra.ipv4list ifc) ;;
                             Ok (cfg ++ lines ++ Zebra.cfgv4 st)
                        else Ok cfg) ;;
                cfg <- (if Zebra.want_ipv6 st
                        then lines <- Zebra.addr_lines (Zebra.ipv6list ifc) ;;
                             Ok (cfg ++ lines ++ Zebra.cfgv6 st)
                        else Ok cfg) ;;
                Ok (cfg ++ "!" ++ nl))).
  { intros l cfg ifc. unfold Zebra.ifc_body. cbv zeta.
    change (services (with_services node l)) with l.
    rewrite (foldM_ext (Zebra.service_step (with_services node l) ifc)
                       (Zebra.service_step node ifc));
      [reflexivity | intros; apply service_step_ignores_services]. }
  assert (Hglob : forall l cfg s',
             Zebra.global_body (with_services node l) cfg s' =
             Zebra.global_body node cfg s').
  { intros l cfg s'. unfold Zebra.global_body.
    now rewrite global_hook_ignores_services. }
  rewrite (foldM_ext (Zebra.ifc_body (with_services node (l1 ++ s :: l2)))
                     (Zebra.ifc_body (with_services node (l1 ++ l2)))).
  - destruct (foldM (Zebra.ifc_body (with_services node (l1 ++ l2)))
                    (node_netifs node) EmptyString) as [cfg|e];
      cbn [bind]; [|reflexivity].
    rewrite !(foldM_ext (Zebra.global_body (with_services node _))
                        (Zebra.global_body node)) by (intros; apply Hglob).
    now apply global_loop_drop.
  - intros cfg ifc. rewrite !Hifc. cbv zeta.
    now rewrite service_loop_drop.
Qed.

End DependencyGate.

Lemma service_without_zebra_dependency_contributes_nothing_witness :
  @Zebra.generateQuaggaConf spec_lib
     (with_services Sample.node1 ([Ospfv2.service] ++ Zebra.service :: [])) =
  @Zebra.generateQuaggaConf spec_lib
     (with_services Sample.node1 ([Ospfv2.service] ++ [])).
Proof.
  apply (@service_without_zebra_dependency_contributes_nothing spec_lib
           Sample.node1 [Ospfv2.service] [] Zebra.service).
  reflexivity.
Defined.

(** C5 fails as stated: [Ospfv2_vtysh] declares a dependency on [vtysh],
    no service of the node has that name, and yet its interface and
    global text is in the composed configuration, which differs from the
    one of the node without it. *)
Lemma missing_dependency_still_contributes :
  mem "vtysh" (dependencies Sample.Ospfv2_vtysh) = true /\
  mem "vtysh" (map name (services Sample.node_missing_dep)) = false /\
  @Zebra.generateQuaggaConf spec_lib Sample.node_missing_dep =
    Ok (unlines [ "interface eth0";
                  "  ip address 10.0.0.1/24";
                  "!";
                  "router ospf";
                  "  router-id 10.0.0.1";
                  "  network 10.0.0.1/24 area 0";
                  "!" ]) /\
  @Zebra.generateQuaggaConf spec_lib
     (with_services Sample.node_missing_dep [Zebra.service]) =
    Ok (unlines [ "interface eth0"; "!" ]).
Proof.
  repeat split.
Qed.

(** ** Addresses of neither shape *)

Lemma mapM_addrstr_first_invalid (a1 a2 : list string) (x : string) :
  (forall a, In a a1 -> has_char "." a = true \/ has_char ":" a = true) ->
  has_char "." x = false -> has_char ":" x = false ->
  mapM Zebra.addrstr (a1 ++ x :: a2) = Raise (ValueError "invalid address: %s" [x]).
Proof.
  intros Hok Hdot Hcolon.
  induction a1 as [|a a1 IH]; cbn [mapM app].
  - rewrite addrstr_cases, Hdot, Hcolon. reflexivity.
  - rewrite (addrstr_cases a).
    destruct (Hok a (or_introl eq_refl)) as [-> | Hc].
    + cbn [bind]. rewrite IH; [reflexivity|]. intros b Hb. apply Hok. now right.
    + rewrite Hc. destruct (has_char "." a); cbn [bind];
        (rewrite IH; [reflexivity|]; intros b Hb; apply Hok; now right).
Qed.

Lemma mapM_app_raise {A B : Type} (f : A -> result B) (l1 l2 : list A) (e : exn) :
  mapM f (l1 ++ l2) = Raise e ->
  mapM f l1 = Raise e \/ (exists r1, mapM f l1 = Ok r1) /\ mapM f l2 = Raise e.
Proof.
  induction l1 as [|a l1 IH]; cbn [mapM app]; intros Hm.
  - right. split; [now exists [] | exact Hm].
  - destruct (f a) as [b|e']; cbn [bind] in *; [|now left].
    destruct (mapM f (l1 ++ l2)) as [r|e'] eqn:Happ; cbn [bind] in Hm;
      [discriminate|].
    injection Hm as ->.
    destruct (IH eq_refl) as [-> | [[r1 ->] Hl2]]; cbn [bind].
    + now left.
    + right. split; [now eexists | exact Hl2].
Qed.

Section InvalidAddress.
Context `{CoreLib}.

(** An error of [addrstr] on one of the addresses handed to it for an
    interface, control or not, is the error of the block. *)
Lemma ifc_body_raises_rendered (node : CoreNode) (cfg : string)
  (ifc : CoreInterface) (st : Zebra.ifc_state) (e : exn) :
  ifc_control ifc = true \/
    foldM (Zebra.service_step node ifc) (services node) init_state = Ok st ->
  mapM Zebra.addrstr (rendered_addrs st ifc) = Raise e ->
  Zebra.ifc_body node cfg ifc = Raise e.
Proof.
  unfold rendered_addrs. intros Hsite Hm.
  destruct (ifc_control ifc) eqn:Hc.
  - rewrite (ifc_body_control node cfg ifc Hc). unfold Zebra.addr_lines.
    now rewrite Hm.
  - destruct Hsite as [Hc'|Hloop]; [discriminate|].
    rewrite (ifc_body_routed node cfg ifc st Hc Hloop).
    unfold Zebra.addr_lines.
    destruct (mapM_app_raise _ _ _ _ Hm) as [H4 | [[r4 H4] H6]].
    + destruct (Zebra.want_ipv4 st); [|discriminate]. now rewrite H4.
    + destruct (Zebra.want_ipv6 st); [|discriminate].
      destruct (Zebra.want_ipv4 st); [rewrite H4|]; cbn [bind]; now rewrite H6.
Qed.

(** An error of an interface block is the error of the composer. *)
Lemma block_error_propagates (node : CoreNode) (pre post : list CoreInterface)
  (ifc : CoreInterface) (cfg : string) (e : exn) :
  node_netifs node = (pre ++ ifc :: post)%list ->
  foldM (Zebra.ifc_body node) pre EmptyString = Ok cfg ->
  Zebra.ifc_body node cfg ifc = Raise e ->
  Zebra.generateQuaggaConf node = Raise e.
Proof.
  intros Hifcs Hpre Hb. unfold Zebra.generateQuaggaConf.
  rewrite Hifcs, foldM_app, Hpre. cbn [bind foldM]. now rewrite Hb.
Qed.

(** C8, as the code has it. [addrstr] gives [ip address <addr>] for a
    string with a dot, [ipv6 address <addr>] for a string with a colon and
    no dot, and raises [ValueError] exactly for a string with neither;
    raised for an address that the composer hands to [addrstr], for a
    control interface or for any other, the error is the result of
    [generateQuaggaConf]; so is any error of an interface block. *)
Theorem addrstr_by_shape (x : string) :
  (has_char "." x = true -> Zebra.addrstr x = Ok ("ip address " ++ x)) /\
  (has_char "." x = false -> has_char ":" x = true ->
     Zebra.addrstr x = Ok ("ipv6 address " ++ x)) /\
  (has_char "." x = false /\ has_char ":" x = false <->
     exists e, Zebra.addrstr x = Raise e) /\
  (has_char "." x = false -> has_char ":" x = false ->
     Zebra.addrstr x = Raise (ValueError "invalid address: %s" [x]) /\
     forall node pre ifc post cfg st a1 a2,
       node_netifs node = (pre ++ ifc :: post)%list ->
       foldM (Zebra.ifc_body node) pre EmptyString = Ok cfg ->
       ifc_control ifc = true \/
         foldM (Zebra.service_step node ifc) (services node) init_state = Ok st ->
       rendered_addrs st ifc = (a1 ++ x :: a2)%list ->
       (forall a, In a a1 -> has_char "." a = true \/ has_char ":" a = true) ->
       Zebra.generateQuaggaConf node =
       Raise (ValueError "invalid address: %s" [x])) /\
  (forall node pre ifc post cfg e,
     node_netifs node = (pre ++ ifc :: post)%list ->
     foldM (Zebra.ifc_body node) pre EmptyString = Ok cfg ->
     Zebra.ifc_body node cfg ifc = Raise e ->
     Zebra.generateQuaggaConf node = Raise e).
Proof.
  rewrite addrstr_cases.
  split; [now intros ->|]. split; [now intros -> ->|]. split; [split|split].
  - intros [-> ->]. now eexists.
  - intros [e He]. destruct (has_char "." x); [discriminate|].
    now destruct (has_char ":" x).
  - intros Hdot Hcolon. rewrite Hdot, Hcolon. split; [reflexivity|].
    intros node pre ifc post cfg st a1 a2 Hifcs Hpre Hsite Haddrs Hok.
    apply (block_error_propagates node pre post ifc cfg _ Hifcs Hpre).
    apply (ifc_body_raises_rendered node cfg ifc st _ Hsite).
    rewrite Haddrs. now apply mapM_addrstr_first_invalid.
  - intros node pre ifc post cfg e. apply block_error_propagates.
Qed.

End InvalidAddress.

Lemma addrstr_by_shape_witness :
  has_char "." "bogus" = false /\ has_char ":" "bogus" = false /\
  @Zebra.generateQuaggaConf spec_lib Sample.node_bad =
  Raise (ValueError "invalid address: %s" ["bogus"]).
Proof.
  split; [reflexivity|]. split; [reflexivity|].
  apply (proj2 (proj1 (proj2 (proj2 (proj2 (@addrstr_by_shape spec_lib "bogus"))))
                      eq_refl eq_refl)
               Sample.node_bad [Sample.eth0] Sample.ctrl_bad []
               (unlines ["interface eth0"; "  ip address 10.0.0.1/24"; "!"])
               init_state ["192.168.0.2/24"] []).
  - reflexivity.
  - reflexivity.
  - now left.
  - reflexivity.
  - intros a [<-|[]]. now left.
Defined.

(** C8 fails as stated: [::ffff:10.0.0.1/96] contains a colon, and
    [addrstr] does not give it the [ipv6 address] form. *)
Lemma addrstr_colon_but_ipv4_form :
  has_char ":" Sample.mapped = true /\
  Zebra.addrstr Sample.mapped = Ok "ip address ::ffff:10.0.0.1/96" /\
  Zebra.addrstr Sample.mapped <> Ok ("ipv6 address " ++ Sample.mapped).
Proof.
  repeat split. discriminate.
Qed.

(** * Further properties of the code *)

(** ** The MTU checks of OSPFv2 and OSPFv3 together *)

Lemma peer_differs_existsb (ifc : CoreInterface) (n : CoreNetwork) :
  ifc_net ifc = Some n ->
  existsb (fun i => negb (ifc_mtu i =? ifc_mtu ifc)%Z) (net_netifs n) = true <->
  peer_differs ifc.
Proof.
  intros Hn. rewrite existsb_exists. split.
  - intros [i [Hin Hne]]. exists n, i. repeat split; auto.
    apply negb_true_iff, Z.eqb_neq in Hne. exact Hne.
  - intros [n' [i [Hn' [Hin Hne]]]]. rewrite Hn in Hn'. injection Hn' as <-.
    exists i. split; [exact Hin|]. now apply negb_true_iff, Z.eqb_neq.
Qed.

Lemma ospfv2_mtucheck_mismatch (ifc : CoreInterface) :
  ifc_mtu ifc <> 1500%Z \/ peer_differs ifc ->
  Ospfv2.mtucheck ifc = "  ip ospf mtu-ignore" ++ nl.
Proof.
  intros Hm. unfold Ospfv2.mtucheck.
  destruct (Z.eqb_spec (ifc_mtu ifc) 1500) as [He|Hne]; cbn [negb]; [|reflexivity].
  destruct Hm as [Hne|Hp]; [contradiction|].
  destruct (ifc_net ifc) as [n|] eqn:Hn.
  - now rewrite (proj2 (peer_differs_existsb ifc n Hn) Hp).
  - destruct Hp as [n [i [Hn' _]]]. congruence.
Qed.

Lemma ospfv2_mtucheck_match (ifc : CoreInterface) :
  ~ (ifc_mtu ifc <> 1500%Z \/ peer_differs ifc) ->
  Ospfv2.mtucheck ifc = EmptyString.
Proof.
  intros Hm. unfold Ospfv2.mtucheck.
  destruct (Z.eqb_spec (ifc_mtu ifc) 1500) as [He|Hne]; cbn [negb];
    [|exfalso; auto].
  destruct (ifc_net ifc) as [n|] eqn:Hn; [|reflexivity].
  destruct (existsb _ (net_netifs n)) eqn:Hex; [|reflexivity].
  exfalso. apply Hm. right. now apply (peer_differs_existsb ifc n Hn).
Qed.

(** X1. The OSPFv2 interface hook emits [ip ospf mtu-ignore] exactly when
    the mtu of the interface is not 1500 or some member of its network
    has another mtu, and emits nothing exactly otherwise. *)
Theorem ospfv2_mtu_ignore_iff (node : CoreNode) (ifc : CoreInterface) :
  (Ospfv2.generatequaggaifcconfig node ifc = "  ip ospf mtu-ignore" ++ nl <->
   ifc_mtu ifc <> 1500%Z \/ peer_differs ifc) /\
  (Ospfv2.generatequaggaifcconfig node ifc = EmptyString <->
   ~ (ifc_mtu ifc <> 1500%Z \/ peer_differs ifc)).
Proof.
  unfold Ospfv2.generatequaggaifcconfig.
  assert (Hdec : (ifc_mtu ifc <> 1500%Z \/ peer_differs ifc) \/
                 ~ (ifc_mtu ifc <> 1500%Z \/ peer_differs ifc)).
  { destruct (Z.eq_dec (ifc_mtu ifc) 1500) as [He|Hne]; [|now left; left].
    destruct (ifc_net ifc) as [n|] eqn:Hn.
    - destruct (existsb (fun i => negb (ifc_mtu i =? ifc_mtu ifc)%Z)
                        (net_netifs n)) eqn:Hex.
      + left. right. now apply (peer_differs_existsb ifc n Hn).
      + right. intros [Hne|Hp]; [contradiction|].
        apply (peer_differs_existsb ifc n Hn) in Hp. congruence.
    - right. intros [Hne|[n [i [Hn' _]]]]; [contradiction | congruence]. }
  split; split.
  - intros Hout. destruct Hdec as [Hm|Hm]; [exact Hm|].
    rewrite (ospfv2_mtucheck_match ifc Hm) in Hout. discriminate.
  - apply ospfv2_mtucheck_mismatch.
  - intros Hout Hm. rewrite (ospfv2_mtucheck_mismatch ifc Hm) in Hout.
    discriminate.
  - apply ospfv2_mtucheck_match.
Qed.

Lemma ospfv3_line_peer_smaller (ifc : CoreInterface) :
  (Ospfv3.minmtu ifc < ifc_mtu ifc)%Z -> peer_differs ifc.
Proof.
  unfold Ospfv3.minmtu, peer_differs. intros Hlt.
  destruct (ifc_net ifc) as [n|]; [|lia].
  destruct (minmtu_fold_in (net_netifs n) (ifc_mtu ifc)) as [Heq|Hin]; [lia|].
  apply in_map_iff in Hin. destruct Hin as [i [Hi Hin]].
  exists n, i. repeat split; auto. lia.
Qed.

(** X2. Whenever the OSPFv3 hook emits an [ifmtu] line for an interface,
    the OSPFv2 hook emits [ip ospf mtu-ignore] for it: a smaller mtu on
    the link is a mismatch for both. *)
Theorem ospfv3_ifmtu_implies_ospfv2_mtu_ignore (node : CoreNode)
  (ifc : CoreInterface) :
  Ospfv3.generatequaggaifcconfig node ifc <> EmptyString ->
  Ospfv2.generatequaggaifcconfig node ifc = "  ip ospf mtu-ignore" ++ nl.
Proof.
  unfold Ospfv3.generatequaggaifcconfig, Ospfv3.mtucheck,
    Ospfv2.generatequaggaifcconfig.
  destruct (Z.ltb_spec (Ospfv3.minmtu ifc) (ifc_mtu ifc)) as [Hlt|Hge];
    [|congruence].
  intros _. apply ospfv2_mtucheck_mismatch. right.
  now apply ospfv3_line_peer_smaller.
Qed.

Lemma ospfv3_ifmtu_implies_ospfv2_mtu_ignore_witness :
  Ospfv3.generatequaggaifcconfig Sample.node_v3 Sample.jumbo <> EmptyString /\
  Ospfv2.generatequaggaifcconfig Sample.node_v3 Sample.jumbo
  = "  ip ospf mtu-ignore" ++ nl.
Proof.
  assert (Hne : Ospfv3.generatequaggaifcconfig Sample.node_v3 Sample.jumbo
                <> EmptyString) by discriminate.
  split; [exact Hne|].
  exact (ospfv3_ifmtu_implies_ospfv2_mtu_ignore Sample.node_v3 Sample.jumbo Hne).
Defined.

(** X3. An interface of mtu 1500 whose network, if it has one, has only
    members of mtu 1500 gets no MTU line from either OSPF service. *)
Theorem uniform_1500_link_is_silent (node : CoreNode) (ifc : CoreInterface) :
  ifc_mtu ifc = 1500%Z ->
  (forall n i, ifc_net ifc = Some n -> In i (net_netifs n) ->
               ifc_mtu i = 1500%Z) ->
  Ospfv2.generatequaggaifcconfig node ifc = EmptyString /\
  Ospfv3.generatequaggaifcconfig node ifc = EmptyString.
Proof.
  intros Hmtu Hall.
  assert (Hnp : ~ peer_differs ifc).
  { intros [n [i [Hn [Hin Hne]]]]. apply Hne.
    rewrite (Hall n i Hn Hin). now symmetry. }
  split.
  - apply ospfv2_mtucheck_match. intros [Hne|Hp]; auto.
  - unfold Ospfv3.generatequaggaifcconfig, Ospfv3.mtucheck.
    destruct (Z.ltb_spec (Ospfv3.minmtu ifc) (ifc_mtu ifc)) as [Hlt|Hge];
      [|reflexivity].
    exfalso. apply Hnp. now apply ospfv3_line_peer_smaller.
Qed.

Lemma uniform_1500_link_is_silent_witness :
  Ospfv2.generatequaggaifcconfig Topology.full_node Topology.on_lan = EmptyString /\
  Ospfv3.generatequaggaifcconfig Topology.full_node Topology.on_lan = EmptyString.
Proof.
  apply (uniform_1500_link_is_silent Topology.full_node Topology.on_lan).
  - reflexivity.
  - intros n i [= <-] [<-|[<-|[<-|[]]]]; reflexivity.
Defined.

(** ** OSPFv3 MDR *)

Section Mdr.
Context `{CoreLib}.

(** X4. The interface text of OSPFv3 MDR is the text of OSPFv3, then the
    line [ipv6 ospf6 instance-id 65], then either nothing or seven more
    lines; without a network it is nothing. So it is never empty. *)
Theorem ospfv3mdr_extends_ospfv3 (node : CoreNode) (ifc : CoreInterface) :
  exists tail,
    Ospfv3mdr.generatequaggaifcconfig node ifc =
      Ospfv3.generatequaggaifcconfig node ifc
      ++ "  ipv6 ospf6 instance-id 65" ++ nl ++ tail /\
    (tail = EmptyString \/ count_nl tail = 7%nat) /\
    (ifc_net ifc = None -> tail = EmptyString) /\
    Ospfv3mdr.generatequaggaifcconfig node ifc <> EmptyString.
Proof.
  unfold Ospfv3mdr.generatequaggaifcconfig, Ospfv3.generatequaggaifcconfig.
  cbv zeta.
  assert (Hne : forall a b, a ++ "  ipv6 ospf6 instance-id 65" ++ b <> EmptyString).
  { intros a b. destruct a; discriminate. }
  destruct (ifc_net ifc) as [n|].
  - destruct (is_node n [WIRELESS_LAN; EMANE]).
    + exists ("  ipv6 ospf6 hello-interval 2" ++ nl
              ++ "  ipv6 ospf6 dead-interval 6" ++ nl
              ++ "  ipv6 ospf6 retransmit-interval 5" ++ nl
              ++ "  ipv6 ospf6 network manet-designated-router" ++ nl
              ++ "  ipv6 ospf6 diffhellos" ++ nl
              ++ "  ipv6 ospf6 adjacencyconnectivity uniconnected" ++ nl
              ++ "  ipv6 ospf6 lsafullness mincostlsa" ++ nl).
      split; [str_norm; reflexivity|].
      split; [right; reflexivity|]. split; [discriminate|].
      str_norm. apply Hne.
    + exists EmptyString. split; [str_norm; reflexivity|].
      split; [now left|]. split; [reflexivity|]. str_norm. apply Hne.
  - exists EmptyString. split; [str_norm; reflexivity|].
    split; [now left|]. split; [reflexivity|]. str_norm. apply Hne.
Qed.

End Mdr.

(** ** More on the router id *)

Lemma before_slash_no_slash (x : string) : has_char "/" (before_slash x) = false.
Proof.
  induction x as [|c x IH]; simpl; [reflexivity|].
  destruct (Ascii.eqb c "/") eqn:Hc; simpl; [reflexivity|].
  now rewrite Hc.
Qed.

Lemma before_slash_prefix (x : string) :
  exists rest, x = before_slash x ++ rest /\
               (rest = EmptyString \/ exists r, rest = String "/" r).
Proof.
  induction x as [|c x [rest [Hx Hrest]]]; simpl.
  - exists EmptyString. auto.
  - destruct (Ascii.eqb_spec c "/") as [->|Hne].
    + exists (String "/" x). split; [reflexivity|]. right. now exists x.
    + exists rest. split; [simpl; now rewrite <- Hx | exact Hrest].
Qed.

(** X5. The router id holds no slash, and it is either [0.0.0.0] or the
    part before the slash of an address with a dot of an interface that
    is not a control interface. *)
Theorem routerid_is_slash_free_prefix (node : CoreNode) :
  has_char "/" (QuaggaService.routerid node) = false /\
  (QuaggaService.routerid node = "0.0.0.0" \/
   exists a rest,
     In a (routable_addrs node) /\ has_char "." a = true /\
     a = QuaggaService.routerid node ++ rest /\
     (rest = EmptyString \/ exists r, rest = String "/" r)).
Proof.
  rewrite routerid_is_spec. unfold routerId_spec.
  destruct (List.find (has_char ".") (routable_addrs node)) as [a|] eqn:Hf.
  - split; [apply before_slash_no_slash|]. right.
    apply find_some in Hf. destruct Hf as [Hin Hdot].
    destruct (before_slash_prefix a) as [rest [Ha Hrest]].
    exists a, rest. auto.
  - split; [reflexivity | now left].
Qed.

(** X6. The router id depends on nothing but the interfaces that are not
    control interfaces: not on the control interfaces, the node id, the
    services or the options. *)
Theorem routerid_ignores_control_interfaces (node : CoreNode) (i : Z)
  (l : list CoreService) (opts : list (string * string)) :
  QuaggaService.routerid (mkNode i (routed_netifs node) l opts)
  = QuaggaService.routerid node.
Proof.
  rewrite !routerid_is_spec. unfold routerId_spec, routable_addrs, routed_netifs.
  cbn [node_netifs].
  assert (Hff : forall l : list CoreInterface,
             filter (fun i => negb (ifc_control i))
                    (filter (fun i => negb (ifc_control i)) l)
             = filter (fun i => negb (ifc_control i)) l).
  { intros l0. induction l0 as [|a l0 IH]; simpl; [reflexivity|].
    destruct (negb (ifc_control a)) eqn:Ha; simpl; rewrite ?Ha, IH; reflexivity. }
  now rewrite Hff.
Qed.

(** ** The interfaces named in the global blocks *)

Lemma fold_left_ext_lines (line : CoreInterface -> string)
  (l : list CoreInterface) (cfg : string) :
  fold_left (fun cfg ifc => if ifc_control ifc then cfg else cfg ++ line ifc) l cfg
  = cfg ++ flatten (map line (filter (fun i => negb (ifc_control i)) l)).
Proof.
  revert cfg. induction l as [|a l IH]; intros cfg; simpl.
  - now rewrite append_nil_r.
  - rewrite IH. destruct (ifc_control a); simpl;
      [reflexivity | now rewrite append_assoc].
Qed.

(** X9. The global blocks of OSPFv3 and of Babel name the interfaces that
    are not control interfaces, each once and in interface order, and no
    control interface. *)
Theorem global_blocks_name_routed_interfaces (node : CoreNode) :
  Ospfv3.generatequaggaconfig node =
    "router ospf6" ++ nl ++ "  router-id " ++ QuaggaService.routerid node ++ nl
    ++ flatten (map (fun i => "  interface " ++ ifc_name i ++ " area 0.0.0.0" ++ nl)
                    (routed_netifs node))
    ++ "!" ++ nl /\
  Babel.generatequaggaconfig node =
    "router babel" ++ nl
    ++ flatten (map (fun i => "  network " ++ ifc_name i ++ nl)
                    (routed_netifs node))
    ++ "  redistribute static" ++ nl ++ "  redistribute connected" ++ nl.
Proof.
  unfold Ospfv3.generatequaggaconfig, Babel.generatequaggaconfig, routed_netifs.
  cbv zeta. split.
  - rewrite (fold_left_ext_lines
               (fun i => "  interface " ++ ifc_name i ++ " area 0.0.0.0" ++ nl)).
    now rewrite !append_assoc.
  - rewrite (fold_left_ext_lines (fun i => "  network " ++ ifc_name i ++ nl)).
    now rewrite !append_assoc.
Qed.

(** ** The candidate interface of PIM *)

Lemma first_not_lo_spec (ifcs : list CoreInterface) (d : string) :
  Xpimd.first_not_lo ifcs d =
  match List.find (fun i => negb (String.eqb (ifc_name i) "lo")) ifcs with
  | Some i => ifc_name i
  | None => d
  end.
Proof.
  induction ifcs as [|i ifcs IH]; simpl; [reflexivity|].
  now destruct (negb (String.eqb (ifc_name i) "lo")).
Qed.

(** X10. The interface that the PIM block names as BSR and RP candidate
    is never [lo]: it is the first interface of the node whose name is
    not [lo], control interfaces included, and [eth0] if there is none. *)
Theorem xpimd_candidate_is_never_lo (node : CoreNode) :
  exists ifname,
    ifname <> "lo" /\
    (ifname = "eth0" /\
       (forall i, In i (node_netifs node) -> ifc_name i = "lo")
     \/ exists pre i post,
          node_netifs node = (pre ++ i :: post)%list /\ ifc_name i = ifname /\
          forall j, In j pre -> ifc_name j = "lo") /\
    Xpimd.generatequaggaconfig node =
      "router mfea" ++ nl ++ "!" ++ nl ++ "router igmp" ++ nl ++ "!" ++ nl
      ++ "router pim" ++ nl
      ++ "  !ip pim rp-address 10.0.0.1" ++ nl
      ++ "  ip pim bsr-candidate " ++ ifname ++ nl
      ++ "  ip pim rp-candidate " ++ ifname ++ nl
      ++ "  !ip pim spt-threshold interval 10 bytes 80000" ++ nl.
Proof.
  exists (Xpimd.first_not_lo (node_netifs node) "eth0").
  split; [|split].
  - induction (node_netifs node) as [|i ifcs IH]; simpl; [discriminate|].
    destruct (String.eqb_spec (ifc_name i) "lo"); simpl; assumption.
  - induction (node_netifs node) as [|i ifcs IH]; simpl.
    + left. split; [reflexivity | intros i []].
    + destruct (String.eqb_spec (ifc_name i) "lo") as [Hlo|Hne]; simpl.
      * destruct IH as [[Heq Hall] | [pre [k [post [Hl [Hk Hpre]]]]]].
        -- left. split; [exact Heq|]. intros j [<-|Hj]; auto.
        -- right. exists (i :: pre), k, post. subst ifcs.
           split; [reflexivity|]. split; [exact Hk|].
           intros j [<-|Hj]; auto.
      * right. exists [], i, ifcs. split; [reflexivity|].
        split; [reflexivity | intros j []].
  - unfold Xpimd.generatequaggaconfig. cbv zeta. now rewrite !append_assoc.
Qed.

(** ** The network lines of OSPFv2 *)

Lemma mapM_app {A B : Type} (f : A -> result B) (l1 l2 : list A) :
  mapM f (l1 ++ l2) =
  r1 <- mapM f l1 ;; r2 <- mapM f l2 ;; Ok (r1 ++ r2)%list.
Proof.
  induction l1 as [|a l1 IH]; simpl.
  - now destruct (mapM f l2).
  - destruct (f a); simpl; [|reflexivity]. rewrite IH.
    destruct (mapM f l1); simpl; [|reflexivity].
    now destruct (mapM f l2).
Qed.

Lemma flatten_app (l1 l2 : list string) :
  flatten (l1 ++ l2) = flatten l1 ++ flatten l2.
Proof.
  induction l1 as [|a l1 IH]; simpl; [reflexivity|].
  now rewrite IH, append_assoc.
Qed.

Section NetworkLines.
Context `{CoreLib}.

Lemma network_lines_addrs (addrs : list string) (cfg : string) :
  foldM (fun cfg a =>
           if (find "." a <? 0)%Z then Ok cfg
           else net <- Ipv4Prefix a ;;
                Ok (cfg ++ "  network " ++ net ++ " area 0" ++ nl))
        addrs cfg =
  nets <- mapM Ipv4Prefix (filter (has_char ".") addrs) ;;
  Ok (cfg ++ flatten (map (fun net => "  network " ++ net ++ " area 0" ++ nl) nets)).
Proof.
  revert cfg. induction addrs as [|a addrs IH]; intros cfg; cbn [foldM filter].
  - cbn. now rewrite append_nil_r.
  - rewrite <- (find_has_char "." a), Z.geb_leb, Z.ltb_antisym.
    destruct (0 <=? find "." a)%Z; cbn [negb bind mapM].
    + destruct (Ipv4Prefix a) as [net|e]; cbn [bind]; [|reflexivity].
      rewrite IH.
      destruct (mapM Ipv4Prefix (filter (has_char ".") addrs)); cbn [bind map flatten];
        [|reflexivity].
      now rewrite !append_assoc.
    + apply IH.
Qed.

Lemma network_lines_netifs (ifcs : list CoreInterface) :
  foldM Ospfv2.network_lines ifcs EmptyString =
  nets <- mapM Ipv4Prefix
            (filter (has_char ".")
               (flat_map ifc_addrlist
                  (filter (fun i => negb (ifc_control i)) ifcs))) ;;
  Ok (flatten (map (fun net => "  network " ++ net ++ " area 0" ++ nl) nets)).
Proof.
  induction ifcs as [|ifc ifcs IH]; [reflexivity|].
  cbn [foldM filter]. unfold Ospfv2.network_lines at 1.
  destruct (ifc_control ifc); cbn [negb bind]; [exact IH|].
  rewrite network_lines_addrs. cbn [flat_map].
  rewrite filter_app, mapM_app.
  destruct (mapM Ipv4Prefix (filter (has_char ".") (ifc_addrlist ifc)))
    as [r1|e]; cbn [bind]; [|reflexivity].
  rewrite (foldM_appending _ network_lines_appending), IH.
  destruct (mapM Ipv4Prefix _) as [r2|e]; cbn [bind]; [|reflexivity].
  now rewrite map_app, flatten_app.
Qed.

(** X7. The global block of OSPFv2 has one [network ... area 0] line for
    each address with a dot of the interfaces that are not control
    interfaces, in order, and no other; it raises what [Ipv4Prefix]
    raises on the first such address it refuses. *)
Theorem ospfv2_one_network_line_per_dotted_address (node : CoreNode) :
  Ospfv2.generatequaggaconfig node =
  nets <- mapM Ipv4Prefix (dotted_addrs node) ;;
  Ok ("router ospf" ++ nl
      ++ "  router-id " ++ QuaggaService.routerid node ++ nl
      ++ flatten (map (fun net => "  network " ++ net ++ " area 0" ++ nl) nets)
      ++ "!" ++ nl).
Proof.
  unfold Ospfv2.generatequaggaconfig, dotted_addrs, routable_addrs. cbv zeta.
  rewrite (foldM_appending _ network_lines_appending), network_lines_netifs.
  destruct (mapM Ipv4Prefix _) as [nets|e]; cbn [bind]; [|reflexivity].
  now rewrite !append_assoc.
Qed.

(** X8. A node with no address with a dot on an interface that is not a
    control interface gets the OSPFv2 block with router id [0.0.0.0] and
    no network line, whatever [Ipv4Prefix] does. *)
Theorem ospfv2_block_without_ipv4 (node : CoreNode) :
  (forall a, In a (routable_addrs node) -> has_char "." a = false) ->
  Ospfv2.generatequaggaconfig node =
  Ok ("router ospf" ++ nl ++ "  router-id 0.0.0.0" ++ nl ++ "!" ++ nl).
Proof.
  intros Hnone.
  unfold Ospfv2.generatequaggaconfig. cbv zeta.
  rewrite (foldM_appending _ network_lines_appending), network_lines_netifs.
  fold (routable_addrs node).
  assert (Hf : filter (has_char ".") (routable_addrs node) = []).
  { induction (routable_addrs node) as [|a l IH]; [reflexivity|]. simpl.
    rewrite (Hnone a (or_introl eq_refl)). apply IH.
    intros b Hb. apply Hnone. now right. }
  rewrite Hf. cbn [mapM bind map flatten].
  rewrite routerid_is_spec. unfold routerId_spec.
  rewrite (find_none_all _ _ Hnone). reflexivity.
Qed.

End NetworkLines.

Lemma ospfv2_block_without_ipv4_witness :
  @Ospfv2.generatequaggaconfig spec_lib Topology.v6_only =
  Ok (unlines ["router ospf"; "  router-id 0.0.0.0"; "!"]).
Proof.
  apply (@ospfv2_block_without_ipv4 spec_lib Topology.v6_only).
  intros a [<-|[]]. reflexivity.
Defined.

(** ** The composer: what the loops add up to *)

Lemma foldM_appending_mapM {A : Type} (body : string -> A -> result string) :
  (forall cfg a, body cfg a = r <- body EmptyString a ;; Ok (cfg ++ r)) ->
  forall l,
    foldM body l EmptyString =
    rs <- mapM (body EmptyString) l ;; Ok (flatten rs).
Proof.
  intros Hb l. induction l as [|a l IH]; [reflexivity|]. cbn [foldM mapM].
  destruct (body EmptyString a) as [r|e]; cbn [bind]; [|reflexivity].
  rewrite (foldM_appending body Hb l r), IH.
  now destruct (mapM (body EmptyString) l).
Qed.

Lemma mapM_filter_skip {A : Type} (keep : A -> bool) (f : A -> result string)
  (l : list A) :
  rs <- mapM (fun a => if negb (keep a) then Ok EmptyString else f a) l ;;
  Ok (flatten rs)
  = rs <- mapM f (filter keep l) ;; Ok (flatten rs).
Proof.
  induction l as [|a l IH]; [reflexivity|]. cbn [mapM filter].
  destruct (keep a); cbn [negb bind mapM].
  - destruct (f a) as [r|e]; cbn [bind]; [|reflexivity].
    destruct (mapM (fun a => if negb (keep a) then Ok EmptyString else f a) l)
      as [rs|e]; destruct (mapM f (filter keep l)) as [rs'|e'];
      cbn [bind flatten] in *; congruence.
  - destruct (mapM (fun a => if negb (keep a) then Ok EmptyString else f a) l)
      as [rs|e]; cbn [bind flatten] in *; exact IH.
Qed.

Lemma mapM_ext_in {A B : Type} (f g : A -> result B) (l : list A) :
  (forall a, f a = g a) -> mapM f l = mapM g l.
Proof.
  intros Hfg. induction l as [|a l IH]; [reflexivity|].
  cbn [mapM]. now rewrite Hfg, IH.
Qed.

Section Composition.
Context `{CoreLib}.

Lemma ifc_hook_ok (s : CoreService) (node : CoreNode) (ifc : CoreInterface) :
  cls s <> ZebraClass ->
  generatequaggaifcconfig s node ifc = Ok (hook_text node ifc s).
Proof.
  unfold hook_text, generatequaggaifcconfig.
  destruct (cls s); intros Hz; [contradiction | reflexivity ..].
Qed.

(** X11. When no gated service is of the class of zebra itself, the loop
    over the services never raises and leaves: in [cfgv4] the interface
    texts of the gated services without [ipv6_routing], in service
    order; in [cfgv6] those of the gated services with [ipv6_routing];
    [want_ipv4] and [want_ipv6] say whether some gated service declares
    the family. *)
Theorem service_loop_result (node : CoreNode) (ifc : CoreInterface)
  (l : list CoreService) :
  (forall s, In s l -> gated s = true -> cls s <> ZebraClass) ->
  foldM (Zebra.service_step node ifc) l init_state =
  Ok (Zebra.mkState
        (flatten (map (hook_text node ifc)
                      (filter (fun s => gated s && negb (ipv6_routing s)) l)))
        (flatten (map (hook_text node ifc)
                      (filter (fun s => gated s && ipv6_routing s) l)))
        (existsb (fun s => gated s && ipv4_routing s) l)
        (existsb (fun s => gated s && ipv6_routing s) l)).
Proof.
  induction l as [|s l IH]; intros Hz; [reflexivity|].
  assert (IH' := IH (fun s' Hs' => Hz s' (or_intror Hs'))). clear IH.
  cbn [foldM]. unfold Zebra.service_step at 1. fold (gated s).
  cbn [filter existsb map].
  destruct (gated s) eqn:Hg; cbn [negb bind andb orb]; [|exact IH'].
  rewrite (ifc_hook_ok s node ifc (Hz s (or_introl eq_refl) Hg)). cbn [bind].
  destruct (ipv4_routing s), (ipv6_routing s); cbn [bind negb];
    rewrite service_loop_merge, IH'; cbn [bind]; unfold merge;
    cbn [map flatten Zebra.cfgv4 Zebra.cfgv6 Zebra.want_ipv4
         Zebra.want_ipv6 orb init_state append];
    now rewrite ?append_nil_r.
Qed.

Lemma global_body_gate (node : CoreNode) (s : CoreService) :
  Zebra.global_body node EmptyString s =
  if negb (gated s) then Ok EmptyString else generatequaggaconfig s node.
Proof.
  unfold Zebra.global_body. fold (gated s).
  destruct (negb (gated s)); [reflexivity|].
  now destruct (generatequaggaconfig s node).
Qed.

(** X12. The composed configuration is the blocks of the interfaces, in
    interface order, each built on its own, followed by the global
    blocks of the gated services, in service order; the first block or
    global hook that raises decides the error. *)
Theorem generateQuaggaConf_is_blocks_then_globals (node : CoreNode) :
  Zebra.generateQuaggaConf node =
  blocks <- mapM (Zebra.ifc_body node EmptyString) (node_netifs node) ;;
  globals <- mapM (fun s => generatequaggaconfig s node)
                  (filter gated (services node)) ;;
  Ok (flatten blocks ++ flatten globals).
Proof.
  rewrite generateQuaggaConf_blocks.
  rewrite (foldM_appending_mapM _ (ifc_body_appending node)).
  rewrite (foldM_appending_mapM _ (global_body_appending node)).
  destruct (mapM (Zebra.ifc_body node EmptyString) (node_netifs node))
    as [blocks|e]; cbn [bind]; [|reflexivity].
  rewrite (mapM_ext_in _ (fun s => if negb (gated s) then Ok EmptyString
                                   else generatequaggaconfig s node))
    by (intros; apply global_body_gate).
  pose proof (mapM_filter_skip gated (fun s => generatequaggaconfig s node)
                               (services node)) as Hskip.
  cbv beta in Hskip. rewrite Hskip.
  now destruct (mapM (fun s => generatequaggaconfig s node)
                     (filter gated (services node))).
Qed.

End Composition.

Lemma service_loop_result_witness :
  foldM (@Zebra.service_step spec_lib Topology.full_node Topology.on_lan)
        (services Topology.full_node) init_state =
  Ok (Zebra.mkState
        (unlines ["  ip mfea"; "  ip igmp"; "  ip pim"])
        (unlines ["  ipv6 ospf6 instance-id 65";
                  "  babel wired"; "  babel split-horizon"])
        true true).
Proof.
  apply (@service_loop_result spec_lib Topology.full_node Topology.on_lan
           (services Topology.full_node)).
  intros s Hin Hg Hz. destruct s as [c nm deps v4 v6]. cbn in Hz. subst c.
  cbn in Hin.
  repeat (destruct Hin as [Heq|Hin]; [try discriminate Heq|]).
  - injection Heq as <- <- <- <-. discriminate Hg.
  - destruct Hin.
Defined.

(** ** The block of one interface *)

Lemma mapM_addrstr_shaped (l : list string) :
  (forall a, In a l -> shaped a = true) ->
  mapM Zebra.addrstr l = Ok (map statement l).
Proof.
  induction l as [|a l IH]; intros Hs; [reflexivity|]. cbn [mapM map].
  rewrite addrstr_cases, IH by (intros b Hb; apply Hs; now right).
  specialize (Hs a (or_introl eq_refl)). unfold shaped in Hs. unfold statement.
  destruct (has_char "." a); [reflexivity|].
  cbn [orb] in Hs. now rewrite Hs.
Qed.

Lemma mapM_addrstr_ok_shaped (l : list string) (r : list string) :
  mapM Zebra.addrstr l = Ok r -> forall a, In a l -> shaped a = true.
Proof.
  revert r. induction l as [|a l IH]; intros r Hm b Hb; [destruct Hb|].
  cbn [mapM] in Hm. rewrite addrstr_cases in Hm. unfold shaped.
  destruct Hb as [<-|Hb].
  - destruct (has_char "." a); [reflexivity|].
    destruct (has_char ":" a); [reflexivity | discriminate].
  - destruct (if has_char "." a then _ else _); cbn [bind] in Hm; [|discriminate].
    destruct (mapM Zebra.addrstr l) as [r'|e] eqn:Hl; [|discriminate].
    now apply (IH r').
Qed.

Section Blocks.
Context `{CoreLib}.

(** X13. The block of a control interface is produced exactly when every
    address of the interface contains a dot or a colon; it is then the
    header and the statements of all its addresses, in order; with no
    address at all, the header is followed by a line of two blanks. *)
Theorem control_block_text (node : CoreNode) (cfg : string)
  (ifc : CoreInterface) :
  ifc_control ifc = true ->
  ((forall a, In a (ifc_addrlist ifc) -> shaped a = true) ->
     Zebra.ifc_body node cfg ifc =
     Ok (cfg ++ "interface " ++ ifc_name ifc ++ nl
         ++ "  " ++ join (nl ++ "  ") (map statement (ifc_addrlist ifc)) ++ nl)) /\
  ((exists out, Zebra.ifc_body node cfg ifc = Ok out) ->
     forall a, In a (ifc_addrlist ifc) -> shaped a = true) /\
  (ifc_addrlist ifc = [] ->
     Zebra.ifc_body node cfg ifc =
     Ok (cfg ++ "interface " ++ ifc_name ifc ++ nl ++ "  " ++ nl)).
Proof.
  intros Hc. rewrite (ifc_body_control node cfg ifc Hc).
  unfold Zebra.addr_lines. split; [|split].
  - intros Hs. now rewrite (mapM_addrstr_shaped _ Hs).
  - intros [out Hout].
    destruct (mapM Zebra.addrstr (ifc_addrlist ifc)) as [r|e] eqn:Hm;
      [|discriminate].
    now apply (mapM_addrstr_ok_shaped _ r).
  - intros ->. reflexivity.
Qed.

Lemma ifc_body_routed_frame (node : CoreNode) (cfg out : string)
  (ifc : CoreInterface) :
  ifc_control ifc = false ->
  Zebra.ifc_body node cfg ifc = Ok out ->
  exists body,
    out = cfg ++ "interface " ++ ifc_name ifc ++ nl ++ body ++ "!" ++ nl.
Proof.
  intros Hc Hout.
  destruct (foldM (Zebra.service_step node ifc) (services node) init_state)
    as [st|e] eqn:Hloop.
  - rewrite (ifc_body_routed node cfg ifc st Hc Hloop) in Hout.
    destruct (if Zebra.want_ipv4 st then _ else _) as [l4|e]; [|discriminate].
    destruct (if Zebra.want_ipv6 st then _ else _) as [l6|e]; [|discriminate].
    cbn [bind] in Hout. injection Hout as <-.
    exists (l4 ++ l6). now rewrite !append_assoc.
  - unfold Zebra.ifc_body in Hout. cbv zeta in Hout. rewrite Hc in Hout.
    change (Zebra.mkState EmptyString EmptyString false false)
      with init_state in Hout.
    rewrite Hloop in Hout. discriminate.
Qed.

(** X14. The block of an interface that is not a control interface,
    when it is produced, opens with the header [interface <name>] and
    closes with the separator line [!]. *)
Theorem routed_block_is_framed (node : CoreNode) (cfg out : string)
  (ifc : CoreInterface) :
  ifc_control ifc = false ->
  Zebra.ifc_body node cfg ifc = Ok out ->
  exists body,
    out = cfg ++ "interface " ++ ifc_name ifc ++ nl ++ body ++ "!" ++ nl.
Proof. apply ifc_body_routed_frame. Qed.

End Blocks.

Lemma control_block_text_witness :
  @Zebra.ifc_body spec_lib Sample.node1 "!" (mkIfc "ctrl1" 1500 true [] None) =
  Ok ("!" ++ "interface ctrl1" ++ nl ++ "  " ++ nl).
Proof.
  apply (proj2 (proj2 (@control_block_text spec_lib Sample.node1 "!"
                         (mkIfc "ctrl1" 1500 true [] None) eq_refl))).
  reflexivity.
Defined.

Lemma routed_block_is_framed_witness :
  exists body,
    unlines ["interface eth0"; "  ip address 10.0.0.1/24"; "!"] =
    EmptyString ++ "interface " ++ ifc_name Sample.eth0 ++ nl ++ body ++ "!" ++ nl.
Proof.
  apply (@routed_block_is_framed spec_lib Sample.node1 EmptyString
           (unlines ["interface eth0"; "  ip address 10.0.0.1/24"; "!"])
           Sample.eth0); reflexivity.
Defined.

(** ** When the composer returns *)

Lemma mapM_all_ok {A B : Type} (f : A -> result B) (l : list A) :
  (forall a, In a l -> exists b, f a = Ok b) -> exists bs, mapM f l = Ok bs.
Proof.
  induction l as [|a l IH]; intros Hok; [now exists []|].
  destruct (Hok a (or_introl eq_refl)) as [b Hb].
  destruct IH as [bs Hbs]; [intros c Hc; apply Hok; now right|].
  exists (b :: bs). cbn [mapM]. now rewrite Hb, Hbs.
Qed.

Lemma filter_In_shaped {A : Type} (p q : A -> bool) (l : list A) :
  (forall a, In a l -> p a = true -> q a = true) ->
  forall a, In a (filter p l) -> q a = true.
Proof.
  intros Hpq a Ha. apply filter_In in Ha. destruct Ha as [Hin Hp]. auto.
Qed.

Section Totality.
Context `{CoreLib}.

(** X15. The composer returns a configuration, and raises nothing, when
    no gated service is of the class of zebra itself, every address of a
    control interface contains a dot or a colon, the two family tests
    accept only such addresses on the other interfaces, and [Ipv4Prefix]
    accepts the addresses with a dot of those interfaces. *)
Theorem generateQuaggaConf_returns (node : CoreNode) :
  (forall s, In s (services node) -> gated s = true -> cls s <> ZebraClass) ->
  (forall i a, In i (node_netifs node) -> ifc_control i = true ->
               In a (ifc_addrlist i) -> shaped a = true) ->
  (forall i a, In i (node_netifs node) -> ifc_control i = false ->
               In a (ifc_addrlist i) -> in_a_family a = true ->
               shaped a = true) ->
  (forall a, In a (dotted_addrs node) -> exists net, Ipv4Prefix a = Ok net) ->
  exists out, Zebra.generateQuaggaConf node = Ok out.
Proof.
  intros Hz Hctl Hfam Hpfx.
  rewrite generateQuaggaConf_blocks.
  rewrite (foldM_appending_mapM _ (ifc_body_appending node)).
  rewrite (foldM_appending_mapM _ (global_body_appending node)).
  destruct (mapM_all_ok (Zebra.ifc_body node EmptyString) (node_netifs node))
    as [blocks ->].
  { intros ifc Hin. destruct (ifc_control ifc) eqn:Hc.
    - rewrite (ifc_body_control node _ ifc Hc). unfold Zebra.addr_lines.
      rewrite (mapM_addrstr_shaped _ (fun a => Hctl ifc a Hin Hc)).
      now eexists.
    - rewrite (ifc_body_routed node _ ifc _ Hc
                 (service_loop_result node ifc (services node) Hz)).
      cbn [Zebra.want_ipv4 Zebra.want_ipv6 Zebra.cfgv4 Zebra.cfgv6].
      unfold Zebra.addr_lines, Zebra.ipv4list, Zebra.ipv6list.
      rewrite !mapM_addrstr_shaped.
      + destruct (existsb _ (services node)), (existsb _ (services node));
          now eexists.
      + apply filter_In_shaped. intros a Ha H6. apply (Hfam ifc a Hin Hc Ha).
        unfold in_a_family. now rewrite H6, orb_true_r.
      + apply filter_In_shaped. intros a Ha H4. apply (Hfam ifc a Hin Hc Ha).
        unfold in_a_family. now rewrite H4. }
  destruct (mapM_all_ok (Zebra.global_body node EmptyString) (services node))
    as [globals ->]; [|now eexists].
  intros s Hin. rewrite global_body_gate.
  destruct (gated s) eqn:Hg; cbn [negb]; [|now eexists].
  specialize (Hz s Hin Hg). unfold generatequaggaconfig.
  destruct (cls s); try contradiction; try (now eexists).
  unfold Ospfv2.generatequaggaconfig. cbv zeta.
  rewrite (foldM_appending _ network_lines_appending), network_lines_netifs.
  destruct (mapM_all_ok Ipv4Prefix (dotted_addrs node) Hpfx) as [nets Hnets].
  unfold dotted_addrs, routable_addrs in Hnets. rewrite Hnets. now eexists.
Qed.

End Totality.

Lemma generateQuaggaConf_returns_witness :
  exists out, @Zebra.generateQuaggaConf spec_lib Topology.full_node = Ok out.
Proof.
  apply (@generateQuaggaConf_returns spec_lib Topology.full_node).
  - intros s Hin Hg Hz. destruct s as [c nm deps v4 v6]. cbn in Hz. subst c.
    cbn in Hin.
    repeat (destruct Hin as [Heq|Hin]; [try discriminate Heq|]).
    + injection Heq as <- <- <- <-. discriminate Hg.
    + destruct Hin.
  - intros i a Hi Hc Ha. cbn in Hi.
    repeat (destruct Hi as [<-|Hi]; [try discriminate Hc|]); [|destruct Hi].
    destruct Ha as [<-|[]]. reflexivity.
  - intros i a Hi Hc Ha Hf. cbn in Hi.
    repeat (destruct Hi as [<-|Hi];
            [try discriminate Hc; cbn in Ha;
             repeat (destruct Ha as [<-|Ha];
                     [try reflexivity; try discriminate Hf|]);
             try destruct Ha|]).
    destruct Hi.
  - intros a Ha. now exists a.
Defined.

(** ** Addresses that neither family test accepts *)

Lemma filter_filter_or {A : Type} (p q : A -> bool) (l : list A) :
  filter p (filter (fun a => p a || q a) l) = filter p l /\
  filter q (filter (fun a => p a || q a) l) = filter q l.
Proof.
  induction l as [|a l [IHp IHq]]; [split; reflexivity|]. cbn [filter].
  destruct (p a) eqn:Hp, (q a) eqn:Hq; cbn [orb filter];
    rewrite ?Hp, ?Hq, ?IHp, ?IHq; split; reflexivity.
Qed.

Section Unfamiliar.
Context `{CoreLib}.

Lemma ifc_hook_ignores_addrlist (s : CoreService) (node : CoreNode)
  (n : string) (m : Z) (c : bool) (a a' : list string)
  (net : option CoreNetwork) :
  generatequaggaifcconfig s node (mkIfc n m c a net) =
  generatequaggaifcconfig s node (mkIfc n m c a' net).
Proof. unfold generatequaggaifcconfig. now destruct (cls s). Qed.

(** X16. On an interface that is not a control interface, an address
    that passes neither [is_ipv4_address] nor [is_ipv6_address] never
    reaches [addrstr]: the block is the one of the interface without
    such addresses, with no statement and no error for them. *)
Theorem unfamiliar_addresses_leave_no_trace (node : CoreNode) (cfg : string)
  (n : string) (m : Z) (addrs : list string) (net : option CoreNetwork) :
  Zebra.ifc_body node cfg (mkIfc n m false addrs net) =
  Zebra.ifc_body node cfg (mkIfc n m false (filter in_a_family addrs) net).
Proof.
  unfold Zebra.ifc_body, Zebra.ipv4list, Zebra.ipv6list, in_a_family.
  cbv zeta. cbn [ifc_control ifc_name ifc_addrlist].
  destruct (filter_filter_or
              (fun x => is_ipv4_address (hd EmptyString (split "/" x)))
              (fun x => is_ipv6_address (hd EmptyString (split "/" x)))
              addrs) as [-> ->].
  rewrite (foldM_ext
             (Zebra.service_step node (mkIfc n m false addrs net))
             (Zebra.service_step node
                (mkIfc n m false
                   (filter (fun x =>
                              is_ipv4_address (hd EmptyString (split "/" x))
                              || is_ipv6_address (hd EmptyString (split "/" x)))
                           addrs) net))).
  - reflexivity.
  - intros st s. unfold Zebra.service_step.
    now rewrite (ifc_hook_ignores_addrlist s node n m false addrs
                   (filter (fun x =>
                              is_ipv4_address (hd EmptyString (split "/" x))
                              || is_ipv6_address (hd EmptyString (split "/" x)))
                           addrs) net).
Qed.

End Unfamiliar.

(** ** Every interface has its header in the composed text *)

Lemma mapM_app_ok {A B : Type} (f : A -> result B) (l1 l2 : list A)
  (bs : list B) :
  mapM f (l1 ++ l2) = Ok bs ->
  exists b1 b2, mapM f l1 = Ok b1 /\ mapM f l2 = Ok b2 /\ bs = (b1 ++ b2)%list.
Proof.
  rewrite mapM_app. intros Hm.
  destruct (mapM f l1) as [b1|e]; cbn [bind] in Hm; [|discriminate].
  destruct (mapM f l2) as [b2|e]; cbn [bind] in Hm; [|discriminate].
  injection Hm as <-. now exists b1, b2.
Qed.

Section Headers.
Context `{CoreLib}.

Lemma ifc_body_header (node : CoreNode) (ifc : CoreInterface) (out : string) :
  Zebra.ifc_body node EmptyString ifc = Ok out ->
  exists rest, out = "interface " ++ ifc_name ifc ++ nl ++ rest.
Proof.
  intros Hout. destruct (ifc_control ifc) eqn:Hc.
  - rewrite (ifc_body_control node _ ifc Hc) in Hout.
    destruct (Zebra.addr_lines (ifc_addrlist ifc)) as [lines|e];
      [|discriminate].
    cbn [bind] in Hout. injection Hout as <-. now exists lines.
  - destruct (ifc_body_routed_frame node _ out ifc Hc Hout) as [body ->].
    now eexists.
Qed.

(** X17. When the composer returns, every interface of the node, control
    or not, has its header line [interface <name>] in the text: for the
    interface at any position of the list, the text is the blocks of the
    interfaces before it, then its own block, which opens with the
    header, then the blocks of the interfaces after it, then the global
    blocks. *)
Theorem every_interface_has_its_header (node : CoreNode) (out : string)
  (pre post : list CoreInterface) (ifc : CoreInterface) :
  Zebra.generateQuaggaConf node = Ok out ->
  node_netifs node = (pre ++ ifc :: post)%list ->
  exists earlier rest later globals,
    mapM (Zebra.ifc_body node EmptyString) pre = Ok earlier /\
    Zebra.ifc_body node EmptyString ifc =
      Ok ("interface " ++ ifc_name ifc ++ nl ++ rest) /\
    mapM (Zebra.ifc_body node EmptyString) post = Ok later /\
    foldM (Zebra.global_body node) (services node) EmptyString = Ok globals /\
    out = flatten earlier
          ++ "interface " ++ ifc_name ifc ++ nl ++ rest
          ++ flatten later ++ globals.
Proof.
  intros Hout Hifcs.
  rewrite generateQuaggaConf_blocks in Hout.
  rewrite (foldM_appending_mapM _ (ifc_body_appending node)) in Hout.
  destruct (mapM (Zebra.ifc_body node EmptyString) (node_netifs node))
    as [blocks|e] eqn:Hblocks; cbn [bind] in Hout; [|discriminate].
  destruct (foldM (Zebra.global_body node) (services node) EmptyString)
    as [globals|e]; cbn [bind] in Hout; [|discriminate].
  injection Hout as <-.
  rewrite Hifcs in Hblocks.
  destruct (mapM_app_ok _ _ _ _ Hblocks) as [earlier [tl [Hpre [Htl ->]]]].
  cbn [mapM] in Htl.
  destruct (Zebra.ifc_body node EmptyString ifc) as [b|e] eqn:Hb;
    cbn [bind] in Htl; [|discriminate].
  destruct (mapM (Zebra.ifc_body node EmptyString) post) as [later|e];
    cbn [bind] in Htl; [|discriminate].
  injection Htl as <-.
  destruct (ifc_body_header node ifc b Hb) as [rest ->].
  exists earlier, rest, later, globals.
  repeat split; auto.
  rewrite flatten_app. cbn [flatten]. now rewrite !append_assoc.
Qed.

End Headers.

Lemma every_interface_has_its_header_witness :
  exists earlier rest later globals,
    mapM (@Zebra.ifc_body spec_lib Sample.node1 EmptyString) [Sample.eth0]
      = Ok earlier /\
    @Zebra.ifc_body spec_lib Sample.node1 EmptyString Sample.eth1 =
      Ok ("interface " ++ ifc_name Sample.eth1 ++ nl ++ rest) /\
    mapM (@Zebra.ifc_body spec_lib Sample.node1 EmptyString) [] = Ok later /\
    foldM (@Zebra.global_body spec_lib Sample.node1)
          (services Sample.node1) EmptyString = Ok globals /\
    unlines [ "interface eth0"; "  ip address 10.0.0.1/24"; "!";
              "interface eth1"; "  ip address 192.168.0.1/24";
              "router ospf"; "  router-id 10.0.0.1";
              "  network 10.0.0.1/24 area 0"; "!" ]
    = flatten earlier
      ++ "interface " ++ ifc_name Sample.eth1 ++ nl ++ rest
      ++ flatten later ++ globals.
Proof.
  apply (@every_interface_has_its_header spec_lib Sample.node1 _
           [Sample.eth0] [] Sample.eth1); reflexivity.
Defined.

(** ** The boot script *)

Section BootScript.
Context `{CoreLib}.

(** X19. The boot script depends on the node through the two search
    path options alone, and on the state directory: it is six lines that
    assign the configuration file, the sbin search path (the option
    [quagga_sbin_search]), the bin search path (the option
    [quagga_bin_search]) and the state directory, followed by a text that
    is the same for every node, whatever its interfaces and services. *)
Theorem boot_script_head_and_fixed_body (node : CoreNode) :
  Zebra.generateQuaggaBoot node =
  unlines
    [ "#!/bin/sh";
      "# auto-generated by zebra service (quagga.py)";
      "QUAGGA_CONF=/usr/local/etc/quagga/Quagga.conf";
      "QUAGGA_SBIN_SEARCH="
        ++ get_config (options node) "quagga_sbin_search"
             (dq ++ "/usr/local/sbin /usr/sbin /usr/lib/quagga" ++ dq);
      "QUAGGA_BIN_SEARCH="
        ++ get_config (options node) "quagga_bin_search"
             (dq ++ "/usr/local/bin /usr/bin /usr/lib/quagga" ++ dq);
      "QUAGGA_STATE_DIR=" ++ QUAGGA_STATE_DIR ]
  ++ drop_lines 6 (@Zebra.generateQuaggaBoot spec_lib Topology.bare).
Proof.
  set (body := drop_lines 6 (@Zebra.generateQuaggaBoot spec_lib Topology.bare)).
  vm_compute in body. subst body.
  unfold Zebra.generateQuaggaBoot. cbv zeta.
  cbn [unlines nth Zebra.configs]. str_norm. reflexivity.
Qed.

End BootScript.

(** ** [SimpleService.get_text_template] *)

(** X18. [get_text_template] has a template exactly for the names listed
    in [files]; for any other name it returns [None]. *)
Theorem get_text_template_covers_files (name : string) :
  (exists text, SimpleService.get_text_template name = Some text) <->
  In name SimpleService.files.
Proof.
  unfold SimpleService.get_text_template, SimpleService.files.
  destruct (String.eqb_spec name "test1.sh") as [->|H1].
  - split; [intros _; now left | intros _; now eexists].
  - destruct (String.eqb_spec name "test2.sh") as [->|H2].
    + split; [intros _; right; now left | intros _; now eexists].
    + split.
      * intros [text Hnone]. discriminate.
      * intros [E|[E|[]]]; congruence.
Qed.
